(** * The ELB-attachment controller of provider-aws, and the reconciliation
    contract it implements.

    The development embeds
    [pkg/controller/elasticloadbalancing/elbattachment/controller.go]:
    the [connector] with its [Connect] and the [external] client with
    [Observe], [Create], [Update] and [Delete].  Go packages are rendered as
    modules of the same name, so that [errors.Wrap], [resource.Ignore] or
    [runtimev1alpha1.Creating] read as they do in the source.

    A Go method that mutates the managed resource through its pointer and
    talks to AWS is a computation over a [World]: the object behind the
    [resource.Managed] interface, the wall clock read by [metav1.Now], and a
    journal that lists, in order, every write to the resource's conditions
    and every call that leaves the process. *)

From stdpp Require Import base option list strings gmap.
From Stdlib Require Import ZArith.
From Stdlib.Strings Require Import Byte.

Open Scope string_scope.
Open Scope list_scope.

(** ** Outcomes and the world-passing monad *)

(** A Go call either returns or panics (nil dereference, nil interface). *)
Inductive Outcome (A : Type) : Type :=
| Done (a : A)
| Panic (why : string).
Arguments Done {A} a.
Arguments Panic {A} why.

Definition M (W A : Type) : Type := W -> Outcome (A * W).

Global Instance M_ret {W} : MRet (M W) :=
  fun A (a : A) (w : W) => Done (a, w).

Global Instance M_bind {W} : MBind (M W) :=
  fun A B (k : A -> M W B) (m : M W A) (w : W) =>
    match m w with
    | Done (a, w') => k a w'
    | Panic why => Panic why
    end.

Definition panic {W A} (why : string) : M W A := fun _ => Panic why.

Definition gets {W A} (f : W -> A) : M W A := fun w => Done (f w, w).

Definition modify {W} (f : W -> W) : M W unit := fun w => Done (tt, f w).

(** ** Package [errors] (github.com/pkg/errors) and Go's [error] *)

(** An error value: one made by [errors.New], a cause wrapped with a message
    by [errors.Wrap], or an error of the AWS SDK with its code.  Go's [error]
    is an interface value that may be nil. *)
Inductive Err : Type :=
| ErrNew (message : string)
| ErrWrap (cause : Err) (message : string)
| ErrAws (code : string) (message : string).

Definition error : Type := option Err.

Module errors.

Definition New (message : string) : error := Some (ErrNew message).

(** [Wrap] returns nil if [err] is nil. *)
Definition Wrap (err : error) (message : string) : error :=
  match err with
  | None => None
  | Some e => Some (ErrWrap e message)
  end.

End errors.

(** ** Package [aws]: pointer helpers *)

Module aws.

Definition String (s : string) : option string := Some s.

Definition StringValue (p : option string) : string :=
  match p with Some s => s | None => "" end.

Definition BoolValue (p : option bool) : bool :=
  match p with Some b => b | None => false end.

End aws.

(** ** Package [runtimev1alpha1]: conditions *)

Module runtimev1alpha1.

Definition Time : Type := Z.

Inductive ConditionStatus : Type :=
| ConditionTrue
| ConditionFalse
| ConditionUnknown.

Definition ConditionType : Type := string.

Definition ConditionStatus_eqb (a b : ConditionStatus) : bool :=
  match a, b with
  | ConditionTrue, ConditionTrue
  | ConditionFalse, ConditionFalse
  | ConditionUnknown, ConditionUnknown => true
  | _, _ => false
  end.

(** Modelled from the spec: the condition tuple of crossplane-runtime,
    which is not part of the source tree: "(type, status, reason, message,
    lastTransitionTime)". *)
Record Condition : Type := {
  CondType : ConditionType;
  Status : ConditionStatus;
  LastTransitionTime : Time;
  Reason : string;
  Message : string
}.

(** Modelled from the spec: the lifecycle condition types, "Creating",
    "Available", "Deleting", and the orthogonal "Synced". *)
Definition TypeCreating : ConditionType := "Creating".
Definition TypeAvailable : ConditionType := "Available".
Definition TypeDeleting : ConditionType := "Deleting".
Definition TypeSynced : ConditionType := "Synced".

(** Modelled from the spec: the constructors [Creating()], [Available()]
    and [Deleting()] the controllers call; each stamps the condition with
    the current time. *)
Definition Creating (now : Time) : Condition :=
  {| CondType := TypeCreating; Status := ConditionTrue;
     LastTransitionTime := now; Reason := "Creating"; Message := "" |}.

Definition Available (now : Time) : Condition :=
  {| CondType := TypeAvailable; Status := ConditionTrue;
     LastTransitionTime := now; Reason := "Available"; Message := "" |}.

Definition Deleting (now : Time) : Condition :=
  {| CondType := TypeDeleting; Status := ConditionTrue;
     LastTransitionTime := now; Reason := "Deleting"; Message := "" |}.

Definition sameType (a b : Condition) : bool :=
  String.eqb (CondType a) (CondType b).

(** Modelled from the spec: what takes the place of [existing] when [new]
    is set over it: "replaces the previous one, updating lastTransitionTime
    only if status changed". *)
Definition supersede (existing new : Condition) : Condition :=
  {| CondType := CondType new; Status := Status new;
     LastTransitionTime :=
       if ConditionStatus_eqb (Status existing) (Status new)
       then LastTransitionTime existing
       else LastTransitionTime new;
     Reason := Reason new; Message := Message new |}.

Fixpoint overwrite (new : Condition) (conds : list Condition) : list Condition :=
  match conds with
  | [] => []
  | existing :: rest =>
      (if sameType existing new then supersede existing new else existing)
        :: overwrite new rest
  end.

(** Modelled from the spec: [ConditionedStatus.SetConditions] of
    crossplane-runtime, for one condition: "setting a condition of a given
    type overwrites any existing condition of that type"; a condition whose
    type is not there yet is appended. *)
Definition SetCondition (conds : list Condition) (new : Condition) : list Condition :=
  if existsb (fun existing => sameType existing new) conds
  then overwrite new conds
  else conds ++ [new].

(** [SetConditions(c ...Condition)] sets its arguments from left to right. *)
Definition SetConditions (conds : list Condition) (c : list Condition) : list Condition :=
  fold_left SetCondition c conds.

(** The condition that is current for a type: the first of that type. *)
Fixpoint GetCondition (ct : ConditionType) (conds : list Condition) : option Condition :=
  match conds with
  | [] => None
  | c :: rest => if String.eqb (CondType c) ct then Some c else GetCondition ct rest
  end.

Definition countType (ct : ConditionType) (conds : list Condition) : nat :=
  length (filter (fun c => CondType c = ct) conds).

(** The data model's invariant: at most one condition per type. *)
Definition wellFormed (conds : list Condition) : Prop :=
  NoDup (map CondType conds).

(** The time a condition carries once [new] has been set over [prev], the
    condition of its type that was there before, if any. *)
Definition transitionTime (prev : option Condition) (new : Condition) : Time :=
  match prev with
  | Some old =>
      if ConditionStatus_eqb (Status old) (Status new)
      then LastTransitionTime old
      else LastTransitionTime new
  | None => LastTransitionTime new
  end.

Definition stamped (new : Condition) (t : Time) : Condition :=
  {| CondType := CondType new; Status := Status new; LastTransitionTime := t;
     Reason := Reason new; Message := Message new |}.

End runtimev1alpha1.


(** ** Package [resource] (crossplane-runtime) *)

Module resource.

(** Values of the interface [resource.Managed] as a controller for the kind
    [T] meets them: a (non-nil) pointer to a resource of its own kind, a
    managed resource of some other kind, or the nil interface, which is what
    the tests hand in as [unexpectedItem]. *)
Inductive Managed (T U : Type) : Type :=
| Ptr (cr : T)
| OtherKind (o : U)
| Nil.
Arguments Ptr {T U} cr.
Arguments OtherKind {T U} o.
Arguments Nil {T U}.

(** The [ok] of the type assertion [cr, ok := mg.(T)], [T] a pointer type. *)
Definition assertOK {T U} (mg : Managed T U) : bool :=
  match mg with
  | Ptr _ => true
  | _ => false
  end.

(** [ErrorIs]: a predicate on errors; it is handed the error as it is, nil
    included. *)
Definition ErrorIs : Type := error -> bool.

(** [Ignore] returns nil if [is'] recognises the error, the error
    otherwise. *)
Definition Ignore (is' : ErrorIs) (err : error) : error :=
  if is' err then None else err.

End resource.

(** ** The world a phase runs in *)

(** The object behind the [resource.Managed] handed to the phase, the wall
    clock ([metav1.Now]), and the journal of events of type [Ev], oldest
    first. *)
Record World (T U Ev : Type) : Type := {
  object : resource.Managed T U;
  now : runtimev1alpha1.Time;
  journal : list Ev
}.
Arguments object {T U Ev} _.
Arguments now {T U Ev} _.
Arguments journal {T U Ev} _.

Definition emit {T U Ev} (ev : Ev) : M (World T U Ev) unit :=
  modify (fun w => {| object := object w; now := now w; journal := journal w ++ [ev] |}).

(** A write through the pointer [cr] obtained from the type assertion. *)
Definition onPointee {T U Ev} (f : T -> T) : M (World T U Ev) unit :=
  modify (fun w =>
    {| object := match object w with
                 | resource.Ptr cr => resource.Ptr (f cr)
                 | other => other
                 end;
       now := now w; journal := journal w |}).

(** ** Package [managed] (crossplane-runtime): what the phases return *)

Module managed.

Record ExternalObservation : Type := {
  ResourceExists : bool;
  ResourceUpToDate : bool
}.

Record ExternalCreation : Type := {
  CreationConnectionDetails : gmap string (list byte)
}.

Record ExternalUpdate : Type := {
  UpdateConnectionDetails : gmap string (list byte)
}.

(** The zero values [managed.ExternalObservation{}] and so on. *)
Definition ExternalObservation_zero : ExternalObservation :=
  {| ResourceExists := false; ResourceUpToDate := false |}.

Definition ExternalCreation_zero : ExternalCreation :=
  {| CreationConnectionDetails := ∅ |}.

Definition ExternalUpdate_zero : ExternalUpdate :=
  {| UpdateConnectionDetails := ∅ |}.

End managed.

(** ** Kubernetes objects read by [Connect] *)

Module types.

Record NamespacedName : Type := {
  Namespace : string;
  Name : string
}.

End types.

Module corev1.

Record Secret : Type := {
  Data : gmap string (list byte)
}.

(** [s.Data[key]]: a missing key reads as the nil slice. *)
Definition DataAt (s : Secret) (key : string) : list byte :=
  default [] (Data s !! key).

End corev1.

Module awsv1alpha3.

(** [runtimev1alpha1.SecretKeySelector]: a secret reference and a key. *)
Record SecretKeySelector : Type := {
  SecretNamespace : string;
  SecretName : string;
  Key : string
}.

Record ProviderSpec : Type := {
  CredentialsSecretRef : option SecretKeySelector;
  Region : string;
  UseServiceAccount : option bool
}.

Record Provider : Type := {
  Spec : ProviderSpec
}.

Definition GetCredentialsSecretReference (p : Provider) : option SecretKeySelector :=
  CredentialsSecretRef (Spec p).

End awsv1alpha3.

Module awsclients.

Inductive AuthMethod : Type :=
| UsePodServiceAccount
| UseProviderSecret.

End awsclients.

Module client.

(** The Kubernetes client of the connector.  [Get(ctx, key, obj)] fills
    [obj] and returns an error; the two reads [Connect] makes are kept
    apart by the kind of [obj]: each gives the content of the freshly
    allocated object after the call, and the error. *)
Record Client : Type := {
  GetProvider : types.NamespacedName -> awsv1alpha3.Provider * error;
  GetSecret : types.NamespacedName -> corev1.Secret * error
}.

End client.

(** ** Package [awselb]: the requests and responses the controller uses *)

Module awselb.

Record Instance : Type := {
  InstanceId : option string
}.

Record DescribeLoadBalancersInput : Type := {
  LoadBalancerNames : list string
}.

Record LoadBalancerDescription : Type := {
  Instances : list Instance
}.

Record DescribeLoadBalancersOutput : Type := {
  LoadBalancerDescriptions : list LoadBalancerDescription
}.

Record RegisterInstancesWithLoadBalancerInput : Type := {
  RegisterInstances : list Instance;
  RegisterLoadBalancerName : option string
}.

Record RegisterInstancesWithLoadBalancerOutput : Type := {
  RegisteredInstances : list Instance
}.

Record DeregisterInstancesFromLoadBalancerInput : Type := {
  DeregisterInstances : list Instance;
  DeregisterLoadBalancerName : option string
}.

Record DeregisterInstancesFromLoadBalancerOutput : Type := {
  RemainingInstances : list Instance
}.

End awselb.

Module elb.

(** The interface [elb.Client].  A field stands for building the request and
    sending it, [c.XRequest(input).Send(ctx)], and gives what [Send]
    returns: a response pointer and an error. *)
Record Client : Type := {
  DescribeLoadBalancersRequest :
    awselb.DescribeLoadBalancersInput ->
    option awselb.DescribeLoadBalancersOutput * error;
  RegisterInstancesWithLoadBalancerRequest :
    awselb.RegisterInstancesWithLoadBalancerInput ->
    option awselb.RegisterInstancesWithLoadBalancerOutput * error;
  DeregisterInstancesFromLoadBalancerRequest :
    awselb.DeregisterInstancesFromLoadBalancerInput ->
    option awselb.DeregisterInstancesFromLoadBalancerOutput * error
}.

End elb.

(** ** Package [v1alpha1]: the ELBAttachment resource *)

Module v1alpha1.

Record Reference : Type := {
  Name : string
}.

Record ELBAttachmentParameters : Type := {
  ELBName : string;
  InstanceID : string
}.

Record ELBAttachmentSpec : Type := {
  ProviderReference : Reference;
  ForProvider : ELBAttachmentParameters
}.

(** The status: the conditions the controller writes, and the observed-state
    block [status.atProvider] of the data model, which this controller never
    reads; its content is left open. *)
Record ELBAttachmentStatus (Observation : Type) : Type := {
  Conditions : list runtimev1alpha1.Condition;
  AtProvider : Observation
}.
Arguments Conditions {Observation} _.
Arguments AtProvider {Observation} _.

Record ELBAttachment (Observation : Type) : Type := {
  Spec : ELBAttachmentSpec;
  Status : ELBAttachmentStatus Observation
}.
Arguments Spec {Observation} _.
Arguments Status {Observation} _.

(** [cr.Status.SetConditions(c...)], on the pointee. *)
Definition SetConditions {Observation} (cr : ELBAttachment Observation)
    (c : list runtimev1alpha1.Condition) : ELBAttachment Observation :=
  {| Spec := Spec cr;
     Status := {| Conditions := runtimev1alpha1.SetConditions (Conditions (Status cr)) c;
                  AtProvider := AtProvider (Status cr) |} |}.

End v1alpha1.


(** ** Package [elbattachment]: the controller *)

Module elbattachment.

Import runtimev1alpha1.

Definition errUnexpectedObject : string :=
  "The managed resource is not an ELBAttachment resource".

Definition errCreateELBClient : string := "cannot create ELB client".
Definition errGetProvider : string := "cannot get provider".
Definition errGetProviderSecret : string := "cannot get provider secret".

Definition errDescribe : string := "failed to list instances for given ELB".
Definition errMultipleItems : string := "retrieved multiple ELBs for the given name".
Definition errCreate : string := "failed to register instance to ELB".
Definition errDelete : string := "failed to deregister instance from the ELB".

Record connector : Type := {
  kube : client.Client;
  newClientFn : list byte -> string -> awsclients.AuthMethod -> option elb.Client * error
}.

Record external : Type := {
  ekube : client.Client;
  client : option elb.Client
}.

(** What leaves the process, or writes to the resource. *)
Inductive GetKind : Type :=
| ProviderKind
| SecretKind.

Inductive Request : Type :=
| DescribeLoadBalancers (input : awselb.DescribeLoadBalancersInput)
| RegisterInstancesWithLoadBalancer (input : awselb.RegisterInstancesWithLoadBalancerInput)
| DeregisterInstancesFromLoadBalancer (input : awselb.DeregisterInstancesFromLoadBalancerInput).

Inductive Event : Type :=
| KubeGet (kind : GetKind) (key : types.NamespacedName)
| NewClient (credentials : list byte) (region : string) (auth : awsclients.AuthMethod)
| Send (r : Request)
| StatusSetConditions (c : list Condition).

Section Controller.

Context {Observation Foreign : Type}.

(** The not-found predicates [elb.IsELBNotFound] and [ec2.IsVPCNotFoundErr]
    come from the client packages, which are not part of the source tree. *)
Variable IsELBNotFound : resource.ErrorIs.
Variable IsVPCNotFoundErr : resource.ErrorIs.

Definition World : Type :=
  World (v1alpha1.ELBAttachment Observation) Foreign Event.

(** [cr.Status.SetConditions(mk())], where [mk] is one of
    [runtimev1alpha1.Creating], [Available], [Deleting], which read the
    clock. *)
Definition StatusSetConditions_now (mk : Time -> Condition) : M World unit :=
  t ← gets now;
  onPointee (fun cr => v1alpha1.SetConditions cr [mk t]);;
  emit (StatusSetConditions [mk t]).

(** [e.client.XRequest(input).Send(ctx)]; a method call on a nil interface
    panics. *)
Definition send {I O : Type} (e : external) (req : I -> Request)
    (call : elb.Client -> I -> option O * error) (input : I) : M World (option O * error) :=
  match client e with
  | None => panic "invalid memory address or nil pointer dereference"
  | Some c => emit (Send (req input));; mret (call c input)
  end.

Definition Connect (c : connector) : M World (option external * error) :=
  mg ← gets object;
  match mg with
  | resource.Ptr cr =>
      let key := {| types.Namespace := "";
                    types.Name := v1alpha1.Name (v1alpha1.ProviderReference (v1alpha1.Spec cr)) |} in
      emit (KubeGet ProviderKind key);;
      let '(p, err) := client.GetProvider (kube c) key in
      match err with
      | Some _ => mret (None, errors.Wrap err errGetProvider)
      | None =>
          if aws.BoolValue (awsv1alpha3.UseServiceAccount (awsv1alpha3.Spec p)) then
            let region := awsv1alpha3.Region (awsv1alpha3.Spec p) in
            emit (NewClient [] region awsclients.UsePodServiceAccount);;
            let '(elbClient, err) := newClientFn c [] region awsclients.UsePodServiceAccount in
            mret (Some {| ekube := kube c; client := elbClient |},
                  errors.Wrap err errCreateELBClient)
          else
            match awsv1alpha3.GetCredentialsSecretReference p with
            | None => mret (None, errors.New errGetProviderSecret)
            | Some ref =>
                let n := {| types.Namespace := awsv1alpha3.SecretNamespace ref;
                            types.Name := awsv1alpha3.SecretName ref |} in
                emit (KubeGet SecretKind n);;
                let '(s, err) := client.GetSecret (kube c) n in
                match err with
                | Some _ => mret (None, errors.Wrap err errGetProviderSecret)
                | None =>
                    let credentials := corev1.DataAt s (awsv1alpha3.Key ref) in
                    let region := awsv1alpha3.Region (awsv1alpha3.Spec p) in
                    emit (NewClient credentials region awsclients.UseProviderSecret);;
                    let '(elbClient, err) :=
                      newClientFn c credentials region awsclients.UseProviderSecret in
                    mret (Some {| ekube := kube c; client := elbClient |},
                          errors.Wrap err errCreateELBClient)
                end
            end
      end
  | _ => mret (None, errors.New errUnexpectedObject)
  end.

(** The loop of [Observe] over [observed.Instances]: [*v.InstanceId] is
    compared with the wanted id, and a nil [InstanceId] makes the
    dereference panic ([None]). *)
Fixpoint findInstance (instances : list awselb.Instance) (wanted : string)
    (instance : string) : option string :=
  match instances with
  | [] => Some instance
  | v :: rest =>
      match awselb.InstanceId v with
      | None => None
      | Some id =>
          findInstance rest wanted
            (if String.eqb id wanted then aws.StringValue (awselb.InstanceId v) else instance)
      end
  end.

Definition Observe (e : external) : M World (managed.ExternalObservation * error) :=
  mgd ← gets object;
  match mgd with
  | resource.Ptr cr =>
      '(response, err) ← send e DescribeLoadBalancers elb.DescribeLoadBalancersRequest
        {| awselb.LoadBalancerNames :=
             [v1alpha1.ELBName (v1alpha1.ForProvider (v1alpha1.Spec cr))] |};
      match err with
      | Some _ =>
          mret (managed.ExternalObservation_zero,
                errors.Wrap (resource.Ignore IsELBNotFound err) errDescribe)
      | None =>
          match response with
          | None => panic "invalid memory address or nil pointer dereference"
          | Some response =>
              if negb (Nat.eqb (length (awselb.LoadBalancerDescriptions response)) 1) then
                mret (managed.ExternalObservation_zero, errors.New errMultipleItems)
              else
                match awselb.LoadBalancerDescriptions response !! 0%nat with
                | None => panic "index out of range"
                | Some observed =>
                    match findInstance (awselb.Instances observed)
                            (v1alpha1.InstanceID (v1alpha1.ForProvider (v1alpha1.Spec cr))) "" with
                    | None => panic "invalid memory address or nil pointer dereference"
                    | Some instance =>
                        if String.eqb instance "" then
                          mret (managed.ExternalObservation_zero, None)
                        else
                          StatusSetConditions_now Available;;
                          mret ({| managed.ResourceExists := true;
                                   managed.ResourceUpToDate := true |}, None)
                    end
                end
          end
      end
  | _ => mret (managed.ExternalObservation_zero, errors.New errUnexpectedObject)
  end.

Definition Create (e : external) : M World (managed.ExternalCreation * error) :=
  mgd ← gets object;
  match mgd with
  | resource.Ptr cr =>
      StatusSetConditions_now Creating;;
      '(_, err) ← send e RegisterInstancesWithLoadBalancer
        elb.RegisterInstancesWithLoadBalancerRequest
        {| awselb.RegisterInstances :=
             [{| awselb.InstanceId :=
                   aws.String (v1alpha1.InstanceID (v1alpha1.ForProvider (v1alpha1.Spec cr))) |}];
           awselb.RegisterLoadBalancerName :=
             aws.String (v1alpha1.ELBName (v1alpha1.ForProvider (v1alpha1.Spec cr))) |};
      mret (managed.ExternalCreation_zero, errors.Wrap err errCreate)
  | _ => mret (managed.ExternalCreation_zero, errors.New errUnexpectedObject)
  end.

Definition Update (e : external) : M World (managed.ExternalUpdate * error) :=
  mret (managed.ExternalUpdate_zero, None).

Definition Delete (e : external) : M World error :=
  mgd ← gets object;
  match mgd with
  | resource.Ptr cr =>
      StatusSetConditions_now Deleting;;
      '(_, err) ← send e DeregisterInstancesFromLoadBalancer
        elb.DeregisterInstancesFromLoadBalancerRequest
        {| awselb.DeregisterInstances :=
             [{| awselb.InstanceId :=
                   aws.String (v1alpha1.InstanceID (v1alpha1.ForProvider (v1alpha1.Spec cr))) |}];
           awselb.DeregisterLoadBalancerName :=
             aws.String (v1alpha1.ELBName (v1alpha1.ForProvider (v1alpha1.Spec cr))) |};
      mret (errors.Wrap (resource.Ignore IsVPCNotFoundErr err) errDelete)
  | _ => mret (errors.New errUnexpectedObject)
  end.

(** The requests the phases build from the resource's desired state, and
    the keys [Connect] reads; named for the statements below. *)
Definition describeInput (cr : v1alpha1.ELBAttachment Observation)
    : awselb.DescribeLoadBalancersInput :=
  {| awselb.LoadBalancerNames :=
       [v1alpha1.ELBName (v1alpha1.ForProvider (v1alpha1.Spec cr))] |}.

Definition registerInput (cr : v1alpha1.ELBAttachment Observation)
    : awselb.RegisterInstancesWithLoadBalancerInput :=
  {| awselb.RegisterInstances :=
       [{| awselb.InstanceId :=
             Some (v1alpha1.InstanceID (v1alpha1.ForProvider (v1alpha1.Spec cr))) |}];
     awselb.RegisterLoadBalancerName :=
       Some (v1alpha1.ELBName (v1alpha1.ForProvider (v1alpha1.Spec cr))) |}.

Definition deregisterInput (cr : v1alpha1.ELBAttachment Observation)
    : awselb.DeregisterInstancesFromLoadBalancerInput :=
  {| awselb.DeregisterInstances :=
       [{| awselb.InstanceId :=
             Some (v1alpha1.InstanceID (v1alpha1.ForProvider (v1alpha1.Spec cr))) |}];
     awselb.DeregisterLoadBalancerName :=
       Some (v1alpha1.ELBName (v1alpha1.ForProvider (v1alpha1.Spec cr))) |}.

Definition providerKey (cr : v1alpha1.ELBAttachment Observation) : types.NamespacedName :=
  {| types.Namespace := "";
     types.Name := v1alpha1.Name (v1alpha1.ProviderReference (v1alpha1.Spec cr)) |}.

Definition secretKey (ref : awsv1alpha3.SecretKeySelector) : types.NamespacedName :=
  {| types.Namespace := awsv1alpha3.SecretNamespace ref;
     types.Name := awsv1alpha3.SecretName ref |}.

Definition ambient (p : awsv1alpha3.Provider) : bool :=
  aws.BoolValue (awsv1alpha3.UseServiceAccount (awsv1alpha3.Spec p)).

(** The ways [Connect] can fail, and what it hands to the client
    constructor when the provider and the credentials are there. *)
Definition providerFetchFails (c : connector) (cr : v1alpha1.ELBAttachment Observation)
    (cause : Err) : Prop :=
  snd (client.GetProvider (kube c) (providerKey cr)) = Some cause.

Definition credentialSourceMissing (c : connector) (cr : v1alpha1.ELBAttachment Observation)
    : Prop :=
  exists p, client.GetProvider (kube c) (providerKey cr) = (p, None) /\
            ambient p = false /\
            awsv1alpha3.CredentialsSecretRef (awsv1alpha3.Spec p) = None.

Definition credentialFetchFails (c : connector) (cr : v1alpha1.ELBAttachment Observation)
    (cause : Err) : Prop :=
  exists p ref, client.GetProvider (kube c) (providerKey cr) = (p, None) /\
                ambient p = false /\
                awsv1alpha3.CredentialsSecretRef (awsv1alpha3.Spec p) = Some ref /\
                snd (client.GetSecret (kube c) (secretKey ref)) = Some cause.

Definition resolved (c : connector) (cr : v1alpha1.ELBAttachment Observation)
    (region : string) (credentials : list byte) (auth : awsclients.AuthMethod) : Prop :=
  exists p, client.GetProvider (kube c) (providerKey cr) = (p, None) /\
            region = awsv1alpha3.Region (awsv1alpha3.Spec p) /\
            ((ambient p = true /\ credentials = [] /\
              auth = awsclients.UsePodServiceAccount) \/
             (ambient p = false /\
              exists ref s,
                awsv1alpha3.CredentialsSecretRef (awsv1alpha3.Spec p) = Some ref /\
                client.GetSecret (kube c) (secretKey ref) = (s, None) /\
                credentials = corev1.DataAt s (awsv1alpha3.Key ref) /\
                auth = awsclients.UseProviderSecret)).

Definition constructionFails (c : connector) (cr : v1alpha1.ELBAttachment Observation)
    (cause : Err) : Prop :=
  exists region credentials auth,
    resolved c cr region credentials auth /\
    snd (newClientFn c credentials region auth) = Some cause.

End Controller.

End elbattachment.


(** ** The group-policy-attachment controller

    Of this controller the source tree holds the test only.  The resource,
    request and client types below are the ones the test builds. *)

Module awsiam.

Record AttachedPolicy : Type := {
  PolicyArn : option string
}.

Record ListAttachedGroupPoliciesInput : Type := {
  GroupName : option string
}.

Record ListAttachedGroupPoliciesOutput : Type := {
  AttachedPolicies : list AttachedPolicy
}.

End awsiam.

Module iam.

(** The part of [iam.GroupPolicyAttachmentClient] that [Observe] uses. *)
Record GroupPolicyAttachmentClient : Type := {
  ListAttachedGroupPoliciesRequest :
    awsiam.ListAttachedGroupPoliciesInput ->
    option awsiam.ListAttachedGroupPoliciesOutput * error
}.

End iam.

Module identityv1alpha1.

Record IAMGroupPolicyAttachmentParameters : Type := {
  GroupName : option string;
  PolicyARN : option string
}.

Record IAMGroupPolicyAttachmentSpec : Type := {
  ProviderReference : v1alpha1.Reference;
  ForProvider : IAMGroupPolicyAttachmentParameters
}.

Record IAMGroupPolicyAttachmentObservation : Type := {
  AttachedPolicyARN : string
}.

Record IAMGroupPolicyAttachmentStatus : Type := {
  Conditions : list runtimev1alpha1.Condition;
  AtProvider : IAMGroupPolicyAttachmentObservation
}.

Record IAMGroupPolicyAttachment : Type := {
  Spec : IAMGroupPolicyAttachmentSpec;
  Status : IAMGroupPolicyAttachmentStatus
}.

Definition SetConditions (cr : IAMGroupPolicyAttachment)
    (c : list runtimev1alpha1.Condition) : IAMGroupPolicyAttachment :=
  {| Spec := Spec cr;
     Status := {| Conditions := runtimev1alpha1.SetConditions (Conditions (Status cr)) c;
                  AtProvider := AtProvider (Status cr) |} |}.

Definition SetAtProvider (cr : IAMGroupPolicyAttachment)
    (o : IAMGroupPolicyAttachmentObservation) : IAMGroupPolicyAttachment :=
  {| Spec := Spec cr;
     Status := {| Conditions := Conditions (Status cr); AtProvider := o |} |}.

End identityv1alpha1.

Module iamgrouppolicyattachment.

Import runtimev1alpha1.

Record external : Type := {
  client : option iam.GroupPolicyAttachmentClient
}.

Inductive Event : Type :=
| Send (input : awsiam.ListAttachedGroupPoliciesInput)
| StatusSetConditions (c : list Condition)
| StatusSetAtProvider (o : identityv1alpha1.IAMGroupPolicyAttachmentObservation).

Section Controller.

Context {Foreign : Type}.

(** The messages [errUnexpectedObject] and [errGet] the test names, and the
    not-found predicate of the kind; their definitions are not in the
    tree. *)
Variable errUnexpectedObject : string.
Variable errGet : string.
Variable IsErrorNotFound : resource.ErrorIs.

Definition World : Type :=
  World identityv1alpha1.IAMGroupPolicyAttachment Foreign Event.

(** The first attached policy whose ARN is the wanted one. *)
Fixpoint findAttached (policies : list awsiam.AttachedPolicy) (wanted : string)
    : option awsiam.AttachedPolicy :=
  match policies with
  | [] => None
  | policy :: rest =>
      if String.eqb (aws.StringValue (awsiam.PolicyArn policy)) wanted
      then Some policy
      else findAttached rest wanted
  end.

(** Modelled from the spec: [external.Observe] of the group-policy-attachment
    controller, which is missing from the tree.  A resource of the wrong
    type fails with the invalid-input error; the attached policies of the
    group are listed; a listing error is returned wrapped with the observe
    tag unless the kind's not-found predicate recognises it, which reads as
    "exists=false"; an attached-policy list without the desired ARN is
    "exists=false", no condition set; with it, the condition "Available" is
    set, the observed state is overwritten with the ARN found, and the
    result is "exists=true, upToDate=true". *)
Definition Observe (e : external) : M World (managed.ExternalObservation * error) :=
  mgd ← gets object;
  match mgd with
  | resource.Ptr cr =>
      match client e with
      | None => panic "invalid memory address or nil pointer dereference"
      | Some c =>
          let input := {| awsiam.GroupName :=
                            identityv1alpha1.GroupName
                              (identityv1alpha1.ForProvider (identityv1alpha1.Spec cr)) |} in
          emit (Send input);;
          let '(observed, err) := iam.ListAttachedGroupPoliciesRequest c input in
          match err with
          | Some _ =>
              mret (managed.ExternalObservation_zero,
                    errors.Wrap (resource.Ignore IsErrorNotFound err) errGet)
          | None =>
              match observed with
              | None => panic "invalid memory address or nil pointer dereference"
              | Some observed =>
                  match findAttached (awsiam.AttachedPolicies observed)
                          (aws.StringValue
                             (identityv1alpha1.PolicyARN
                                (identityv1alpha1.ForProvider (identityv1alpha1.Spec cr)))) with
                  | None => mret (managed.ExternalObservation_zero, None)
                  | Some attached =>
                      t ← gets now;
                      onPointee (fun cr => identityv1alpha1.SetConditions cr [Available t]);;
                      emit (StatusSetConditions [Available t]);;
                      let o := {| identityv1alpha1.AttachedPolicyARN :=
                                    aws.StringValue (awsiam.PolicyArn attached) |} in
                      onPointee (fun cr => identityv1alpha1.SetAtProvider cr o);;
                      emit (StatusSetAtProvider o);;
                      mret ({| managed.ResourceExists := true;
                               managed.ResourceUpToDate := true |}, None)
                  end
              end
          end
      end
  | _ => mret (managed.ExternalObservation_zero, errors.New errUnexpectedObject)
  end.

End Controller.

End iamgrouppolicyattachment.


(** ** What a phase leaves behind

    Vocabulary for statements about every phase of the ELB-attachment
    controller at once. *)

Module phase.

Import runtimev1alpha1.

(** What the caller gets back, without the world. *)
Definition resultOf {A W : Type} (o : Outcome (A * W)) : Outcome A :=
  match o with
  | Done (a, _) => Done a
  | Panic why => Panic why
  end.

Definition isSend (ev : elbattachment.Event) : bool :=
  match ev with
  | elbattachment.Send _ => true
  | _ => false
  end.

(** The number of requests sent to AWS that a journal records. *)
Definition sends (j : list elbattachment.Event) : nat :=
  length (List.filter isSend j).

(** [o], the outcome of a phase started in [w], kept the clock, only added
    [added] to the journal, and left the object alone or, at most, set the
    condition [mk] on the resource. *)
Definition wrote {Observation Foreign A : Type} (mk : option (Time -> Condition))
    (w : @elbattachment.World Observation Foreign)
    (o : Outcome (A * @elbattachment.World Observation Foreign))
    (added : list elbattachment.Event) : Prop :=
  match o with
  | Done (_, w') =>
      now w' = now w /\
      journal w' = journal w ++ added /\
      (object w' = object w \/
       exists cr mk', mk = Some mk' /\ object w = resource.Ptr cr /\
                      object w' = resource.Ptr (v1alpha1.SetConditions cr [mk' (now w)]))
  | Panic _ => True
  end.

(** The desired state and the observed state of the object, whatever its
    conditions: what a phase must not touch. *)
Definition sameButConditions {Observation Foreign : Type}
    (mg mg' : resource.Managed (v1alpha1.ELBAttachment Observation) Foreign) : Prop :=
  match mg, mg' with
  | resource.Ptr cr, resource.Ptr cr' =>
      v1alpha1.Spec cr = v1alpha1.Spec cr' /\
      v1alpha1.AtProvider (v1alpha1.Status cr) = v1alpha1.AtProvider (v1alpha1.Status cr')
  | resource.OtherKind o, resource.OtherKind o' => o = o'
  | resource.Nil, resource.Nil => True
  | _, _ => False
  end.

(** [o] left the desired and the observed state of the object of [w] as
    they were. *)
Definition untouched {Observation Foreign A : Type}
    (w : @elbattachment.World Observation Foreign)
    (o : Outcome (A * @elbattachment.World Observation Foreign)) : Prop :=
  match o with
  | Done (_, w') => sameButConditions (object w) (object w')
  | Panic _ => True
  end.

(** [o] sent at most [n] requests to AWS beyond those in the journal
    of [w]. *)
Definition sentAtMost {Observation Foreign A : Type} (n : nat)
    (w : @elbattachment.World Observation Foreign)
    (o : Outcome (A * @elbattachment.World Observation Foreign)) : Prop :=
  match o with
  | Done (_, w') => (sends (journal w) <= sends (journal w') <= sends (journal w) + n)%nat
  | Panic _ => True
  end.

End phase.

(** ** The helpers of the group-policy-attachment test

    [groupPolicy] builds the resource a test case starts from, or expects,
    by applying modifiers to a resource that only names its provider. *)

Module iamgrouppolicyattachment_test.

Import runtimev1alpha1.

Definition providerName : string := "aws-creds".

Definition groupPolicyModifier : Type :=
  identityv1alpha1.IAMGroupPolicyAttachment -> identityv1alpha1.IAMGroupPolicyAttachment.

Definition withConditions (c : list Condition) : groupPolicyModifier :=
  fun r =>
    {| identityv1alpha1.Spec := identityv1alpha1.Spec r;
       identityv1alpha1.Status :=
         {| identityv1alpha1.Conditions := c;
            identityv1alpha1.AtProvider :=
              identityv1alpha1.AtProvider (identityv1alpha1.Status r) |} |}.

Definition withGroupName (s : option string) : groupPolicyModifier :=
  fun r =>
    {| identityv1alpha1.Spec :=
         {| identityv1alpha1.ProviderReference :=
              identityv1alpha1.ProviderReference (identityv1alpha1.Spec r);
            identityv1alpha1.ForProvider :=
              {| identityv1alpha1.GroupName := s;
                 identityv1alpha1.PolicyARN :=
                   identityv1alpha1.PolicyARN
                     (identityv1alpha1.ForProvider (identityv1alpha1.Spec r)) |} |};
       identityv1alpha1.Status := identityv1alpha1.Status r |}.

Definition withSpecPolicyArn (s : string) : groupPolicyModifier :=
  fun r =>
    {| identityv1alpha1.Spec :=
         {| identityv1alpha1.ProviderReference :=
              identityv1alpha1.ProviderReference (identityv1alpha1.Spec r);
            identityv1alpha1.ForProvider :=
              {| identityv1alpha1.GroupName :=
                   identityv1alpha1.GroupName
                     (identityv1alpha1.ForProvider (identityv1alpha1.Spec r));
                 identityv1alpha1.PolicyARN := Some s |} |};
       identityv1alpha1.Status := identityv1alpha1.Status r |}.

Definition withStatusPolicyArn (s : string) : groupPolicyModifier :=
  fun r =>
    {| identityv1alpha1.Spec := identityv1alpha1.Spec r;
       identityv1alpha1.Status :=
         {| identityv1alpha1.Conditions :=
              identityv1alpha1.Conditions (identityv1alpha1.Status r);
            identityv1alpha1.AtProvider :=
              {| identityv1alpha1.AttachedPolicyARN := s |} |} |}.

(** [groupPolicy(m...)]: the modifiers are applied from left to right to a
    resource whose fields are zero but for the provider reference. *)
Definition groupPolicy (m : list groupPolicyModifier)
    : identityv1alpha1.IAMGroupPolicyAttachment :=
  fold_left (fun cr f => f cr) m
    {| identityv1alpha1.Spec :=
         {| identityv1alpha1.ProviderReference := {| v1alpha1.Name := providerName |};
            identityv1alpha1.ForProvider :=
              {| identityv1alpha1.GroupName := None; identityv1alpha1.PolicyARN := None |} |};
       identityv1alpha1.Status :=
         {| identityv1alpha1.Conditions := [];
            identityv1alpha1.AtProvider := {| identityv1alpha1.AttachedPolicyARN := "" |} |} |}.

(** A modifier made by one of the four constructors of the test file. *)
Inductive isModifier : groupPolicyModifier -> Prop :=
| isWithConditions c : isModifier (withConditions c)
| isWithGroupName s : isModifier (withGroupName s)
| isWithSpecPolicyArn s : isModifier (withSpecPolicyArn s)
| isWithStatusPolicyArn s : isModifier (withStatusPolicyArn s).

End iamgrouppolicyattachment_test.


(** ** Concrete resources and clients

    The values the statements below are tried on; they follow the fixtures of
    the controllers' tests. *)

Module fixtures.

Import runtimev1alpha1.

Definition providerName : string := "aws-creds".
Definition secretNamespace : string := "crossplane-system".
Definition testRegion : string := "us-east-1".
Definition connectionSecretName : string := "my-little-secret".
Definition secretKey : string := "credentials".
Definition credData : list byte := [x63; x6f; x6e; x66].

Definition errBoom : Err := ErrNew "boom".

(** An ELBAttachment with an observed state, before any pass. *)
Definition attachment : v1alpha1.ELBAttachment string :=
  {| v1alpha1.Spec :=
       {| v1alpha1.ProviderReference := {| v1alpha1.Name := providerName |};
          v1alpha1.ForProvider :=
            {| v1alpha1.ELBName := "my-elb"; v1alpha1.InstanceID := "i-0123" |} |};
     v1alpha1.Status :=
       {| v1alpha1.Conditions := []; v1alpha1.AtProvider := "observed" |} |}.

Definition world (mg : resource.Managed (v1alpha1.ELBAttachment string) unit)
    : World (v1alpha1.ELBAttachment string) unit elbattachment.Event :=
  {| object := mg; now := 42%Z; journal := [] |}.

(** A client whose every call fails with [err]. *)
Definition failing (err : Err) : elb.Client :=
  {| elb.DescribeLoadBalancersRequest := fun _ => (None, Some err);
     elb.RegisterInstancesWithLoadBalancerRequest := fun _ => (None, Some err);
     elb.DeregisterInstancesFromLoadBalancerRequest := fun _ => (None, Some err) |}.

(** A client whose load balancer has the instances [ids] registered, and
    answers a registration with the instances [registered]. *)
Definition serving (ids registered : list string) : elb.Client :=
  {| elb.DescribeLoadBalancersRequest := fun _ =>
       (Some {| awselb.LoadBalancerDescriptions :=
                  [{| awselb.Instances :=
                        map (fun i => {| awselb.InstanceId := Some i |}) ids |}] |}, None);
     elb.RegisterInstancesWithLoadBalancerRequest := fun _ =>
       (Some {| awselb.RegisteredInstances :=
                  map (fun i => {| awselb.InstanceId := Some i |}) registered |}, None);
     elb.DeregisterInstancesFromLoadBalancerRequest := fun _ =>
       (Some {| awselb.RemainingInstances := [] |}, None) |}.

(** A client that finds no load balancer description at all. *)
Definition describingNone : elb.Client :=
  {| elb.DescribeLoadBalancersRequest := fun _ =>
       (Some {| awselb.LoadBalancerDescriptions := [] |}, None);
     elb.RegisterInstancesWithLoadBalancerRequest := fun _ => (None, Some errBoom);
     elb.DeregisterInstancesFromLoadBalancerRequest := fun _ => (None, Some errBoom) |}.

(** A not-found predicate of the SDK's kind: it looks at the error code. *)
Definition byCode (code : string) : resource.ErrorIs :=
  fun err => match err with
             | Some (ErrAws c _) => String.eqb c code
             | _ => false
             end.

Definition isELBNotFound : resource.ErrorIs := byCode "LoadBalancerNotFound".
Definition isVPCNotFoundErr : resource.ErrorIs := byCode "InvalidVpcID.NotFound".

Definition loadBalancerNotFound : Err :=
  ErrAws "LoadBalancerNotFound" "There is no ACTIVE Load Balancer named 'my-elb'".

Definition kubeNone : client.Client :=
  {| client.GetProvider := fun _ =>
       ({| awsv1alpha3.Spec :=
             {| awsv1alpha3.CredentialsSecretRef := None; awsv1alpha3.Region := "";
                awsv1alpha3.UseServiceAccount := None |} |}, Some errBoom);
     client.GetSecret := fun _ => ({| corev1.Data := ∅ |}, Some errBoom) |}.

Definition handle (c : elb.Client) : elbattachment.external :=
  {| elbattachment.ekube := kubeNone; elbattachment.client := Some c |}.

(** The provider of the tests, in ambient-identity mode or not. *)
Definition providerSA (saVal : bool) : awsv1alpha3.Provider :=
  {| awsv1alpha3.Spec :=
       {| awsv1alpha3.CredentialsSecretRef :=
            Some {| awsv1alpha3.SecretNamespace := secretNamespace;
                    awsv1alpha3.SecretName := connectionSecretName;
                    awsv1alpha3.Key := secretKey |};
          awsv1alpha3.Region := testRegion;
          awsv1alpha3.UseServiceAccount := Some saVal |} |}.

Definition kubeWith (saVal : bool) : client.Client :=
  {| client.GetProvider := fun _ => (providerSA saVal, None);
     client.GetSecret := fun _ => ({| corev1.Data := {[ secretKey := credData ]} |}, None) |}.

Definition policyArn : string := "some arn".
Definition groupName : string := "some group".

(** The test's [groupPolicy(withGroupName(&groupName),
    withSpecPolicyArn(policyArn))]. *)
Definition groupPolicy : identityv1alpha1.IAMGroupPolicyAttachment :=
  {| identityv1alpha1.Spec :=
       {| identityv1alpha1.ProviderReference := {| v1alpha1.Name := providerName |};
          identityv1alpha1.ForProvider :=
            {| identityv1alpha1.GroupName := Some groupName;
               identityv1alpha1.PolicyARN := Some policyArn |} |};
     identityv1alpha1.Status :=
       {| identityv1alpha1.Conditions := [];
          identityv1alpha1.AtProvider := {| identityv1alpha1.AttachedPolicyARN := "" |} |} |}.

(** The test's mock: the group has the policies [arns] attached. *)
Definition listing (arns : list string) : iam.GroupPolicyAttachmentClient :=
  {| iam.ListAttachedGroupPoliciesRequest := fun _ =>
       (Some {| awsiam.AttachedPolicies :=
                  map (fun a => {| awsiam.PolicyArn := Some a |}) arns |}, None) |}.

(** An attachment whose desired state names no instance. *)
Definition unnamed : v1alpha1.ELBAttachment string :=
  {| v1alpha1.Spec :=
       {| v1alpha1.ProviderReference := {| v1alpha1.Name := providerName |};
          v1alpha1.ForProvider :=
            {| v1alpha1.ELBName := "my-elb"; v1alpha1.InstanceID := "" |} |};
     v1alpha1.Status :=
       {| v1alpha1.Conditions := []; v1alpha1.AtProvider := "observed" |} |}.

(** A client that describes one load balancer with the instances [instances],
    as they are. *)
Definition describing (instances : list awselb.Instance) : elb.Client :=
  {| elb.DescribeLoadBalancersRequest := fun _ =>
       (Some {| awselb.LoadBalancerDescriptions :=
                  [{| awselb.Instances := instances |}] |}, None);
     elb.RegisterInstancesWithLoadBalancerRequest := fun _ => (None, None);
     elb.DeregisterInstancesFromLoadBalancerRequest := fun _ => (None, None) |}.

(** A Kubernetes client whose provider is not in ambient mode and whose
    secret lacks the key the provider names. *)
Definition kubeWithoutKey : client.Client :=
  {| client.GetProvider := fun _ => (providerSA false, None);
     client.GetSecret := fun _ => ({| corev1.Data := {[ "other" := credData ]} |}, None) |}.

(** A Kubernetes client whose provider is there and whose secret is not. *)
Definition kubeWithoutSecret : client.Client :=
  {| client.GetProvider := fun _ => (providerSA false, None);
     client.GetSecret := fun _ => ({| corev1.Data := ∅ |}, Some errBoom) |}.

(** A Kubernetes client whose provider names no secret and is not in
    ambient mode. *)
Definition kubeWithoutRef : client.Client :=
  {| client.GetProvider := fun _ =>
       ({| awsv1alpha3.Spec :=
             {| awsv1alpha3.CredentialsSecretRef := None; awsv1alpha3.Region := testRegion;
                awsv1alpha3.UseServiceAccount := Some false |} |}, None);
     client.GetSecret := fun _ => ({| corev1.Data := ∅ |}, Some errBoom) |}.

End fixtures.


(** * Properties *)

(** Runs a phase on a world: unfolds the monad and the primitive steps. *)
Ltac run_phase :=
  unfold mbind, M_bind, mret, M_ret, panic, gets, modify, emit, onPointee; simpl.

(** ** Conditions: one per type *)

Section ConditionFacts.

Import runtimev1alpha1.

Implicit Types (conds : list Condition) (new old c : Condition) (ct : ConditionType).

Lemma sameType_true existing new :
  sameType existing new = true <-> CondType existing = CondType new.
Proof. unfold sameType. apply String.eqb_eq. Qed.

Lemma sameType_false existing new :
  sameType existing new = false <-> CondType existing <> CondType new.
Proof. unfold sameType. apply String.eqb_neq. Qed.

Lemma existsb_sameType conds new :
  existsb (fun existing => sameType existing new) conds = true
  <-> CondType new ∈ map CondType conds.
Proof.
  induction conds as [|c conds IH]; simpl.
  - split; [discriminate | intros H; inversion H].
  - rewrite orb_true_iff, IH, sameType_true, elem_of_cons. intuition congruence.
Qed.

Lemma overwrite_types new conds :
  map CondType (overwrite new conds) = map CondType conds.
Proof.
  induction conds as [|c conds IH]; simpl; [reflexivity|].
  rewrite IH. destruct (sameType c new) eqn:E; simpl; [|reflexivity].
  apply sameType_true in E. congruence.
Qed.

Lemma overwrite_length new conds : length (overwrite new conds) = length conds.
Proof. induction conds; simpl; congruence. Qed.

Lemma SetCondition_present conds new :
  CondType new ∈ map CondType conds ->
  SetCondition conds new = overwrite new conds.
Proof. intros H. unfold SetCondition. apply existsb_sameType in H. by rewrite H. Qed.

Lemma SetCondition_absent conds new :
  CondType new ∉ map CondType conds ->
  SetCondition conds new = conds ++ [new].
Proof.
  intros H. unfold SetCondition.
  destruct (existsb _ conds) eqn:E; [|reflexivity].
  apply existsb_sameType in E. contradiction.
Qed.

Lemma SetCondition_elem conds new :
  CondType new ∈ map CondType (SetCondition conds new).
Proof.
  destruct (decide (CondType new ∈ map CondType conds)) as [H|H].
  - rewrite SetCondition_present, overwrite_types; done.
  - rewrite SetCondition_absent, map_app by done.
    apply elem_of_app. right. simpl. left.
Qed.

Lemma SetCondition_elem_other conds new ct :
  ct ∈ map CondType conds -> ct ∈ map CondType (SetCondition conds new).
Proof.
  intros Hct. destruct (decide (CondType new ∈ map CondType conds)) as [H|H].
  - rewrite SetCondition_present, overwrite_types; done.
  - rewrite SetCondition_absent, map_app by done.
    apply elem_of_app. by left.
Qed.

Lemma SetCondition_wellFormed conds new :
  wellFormed conds -> wellFormed (SetCondition conds new).
Proof.
  unfold wellFormed. intros Hwf.
  destruct (decide (CondType new ∈ map CondType conds)) as [H|H].
  - rewrite SetCondition_present, overwrite_types; done.
  - rewrite SetCondition_absent, map_app by done. simpl.
    apply NoDup_app. split; [done|]. split; [|apply NoDup_singleton].
    intros x Hx Hx'. apply list_elem_of_singleton in Hx'. by subst.
Qed.

Lemma SetConditions_wellFormed (cs : list Condition) conds :
  wellFormed conds -> wellFormed (SetConditions conds cs).
Proof.
  revert conds. unfold SetConditions.
  induction cs as [|new cs IH]; simpl; intros conds Hwf; [done|].
  apply IH. by apply SetCondition_wellFormed.
Qed.

Lemma countType_cons c conds ct :
  countType ct (c :: conds)
  = ((if decide (CondType c = ct) then 1 else 0) + countType ct conds)%nat.
Proof.
  unfold countType. rewrite filter_cons. destruct (decide (CondType c = ct)); reflexivity.
Qed.

Lemma countType_absent conds ct :
  ct ∉ map CondType conds -> countType ct conds = 0%nat.
Proof.
  induction conds as [|c conds IH]; [reflexivity|].
  simpl. rewrite not_elem_of_cons. intros [Hne Hnot].
  rewrite countType_cons, IH by done. destruct (decide (CondType c = ct)); [congruence | reflexivity].
Qed.

Lemma countType_wellFormed conds ct :
  wellFormed conds -> ct ∈ map CondType conds -> countType ct conds = 1%nat.
Proof.
  unfold wellFormed. induction conds as [|c conds IH]; simpl.
  - intros _ H. inversion H.
  - intros Hnd Hin. apply NoDup_cons in Hnd as [Hnot Hnd].
    rewrite countType_cons. destruct (decide (CondType c = ct)) as [Heq|Hne].
    + subst ct. by rewrite countType_absent.
    + apply elem_of_cons in Hin as [Heq|Hin]; [congruence|]. by rewrite IH.
Qed.

Lemma GetCondition_None conds ct :
  GetCondition ct conds = None <-> ct ∉ map CondType conds.
Proof.
  induction conds as [|c conds IH]; simpl.
  - split; [intros _ H; inversion H | done].
  - rewrite not_elem_of_cons, <- IH.
    destruct (String.eqb (CondType c) ct) eqn:E.
    + apply String.eqb_eq in E. split; [discriminate | intros []; congruence].
    + apply String.eqb_neq in E. split; [intros; split; congruence | intros []; done].
Qed.

Lemma GetCondition_Some_elem conds ct c :
  GetCondition ct conds = Some c -> c ∈ conds /\ CondType c = ct.
Proof.
  induction conds as [|c' conds IH]; simpl; [discriminate|].
  destruct (String.eqb (CondType c') ct) eqn:E.
  - apply String.eqb_eq in E. intros [= ->]. split; [left | done].
  - intros H. destruct (IH H). split; [by right | done].
Qed.

Lemma GetCondition_app_absent conds new :
  GetCondition (CondType new) conds = None ->
  GetCondition (CondType new) (conds ++ [new]) = Some new.
Proof.
  induction conds as [|c conds IH]; simpl.
  - by rewrite String.eqb_refl.
  - destruct (String.eqb (CondType c) (CondType new)); [discriminate | exact IH].
Qed.

Lemma GetCondition_app_other conds new ct :
  CondType new <> ct ->
  GetCondition ct (conds ++ [new]) = GetCondition ct conds.
Proof.
  intros Hne. induction conds as [|c conds IH]; simpl.
  - apply String.eqb_neq in Hne. by rewrite Hne.
  - by rewrite IH.
Qed.

Lemma GetCondition_overwrite conds new old :
  GetCondition (CondType new) conds = Some old ->
  GetCondition (CondType new) (overwrite new conds) = Some (supersede old new).
Proof.
  induction conds as [|c conds IH]; simpl; [discriminate|].
  unfold sameType. destruct (String.eqb (CondType c) (CondType new)) eqn:E; simpl.
  - intros [= ->]. by rewrite String.eqb_refl.
  - rewrite E. exact IH.
Qed.

Lemma GetCondition_overwrite_other conds new ct :
  CondType new <> ct ->
  GetCondition ct (overwrite new conds) = GetCondition ct conds.
Proof.
  intros Hne. induction conds as [|c conds IH]; simpl; [reflexivity|].
  rewrite IH. destruct (sameType c new) eqn:E; simpl; [|reflexivity].
  apply sameType_true in E. rewrite E.
  apply String.eqb_neq in Hne. by rewrite Hne.
Qed.

(** What is current for the type of [new] once [new] is set. *)
Lemma GetCondition_SetCondition conds new :
  GetCondition (CondType new) (SetCondition conds new)
  = Some (match GetCondition (CondType new) conds with
          | Some old => supersede old new
          | None => new
          end).
Proof.
  destruct (GetCondition (CondType new) conds) as [old|] eqn:E.
  - rewrite SetCondition_present.
    + by apply GetCondition_overwrite.
    + destruct (decide (CondType new ∈ map CondType conds)) as [|H]; [done|].
      apply GetCondition_None in H. congruence.
  - rewrite SetCondition_absent by by apply GetCondition_None.
    by apply GetCondition_app_absent.
Qed.

(** Setting [new] leaves the conditions of the other types as they are. *)
Lemma GetCondition_SetCondition_other conds new ct :
  CondType new <> ct ->
  GetCondition ct (SetCondition conds new) = GetCondition ct conds.
Proof.
  intros Hne. unfold SetCondition. destruct (existsb _ conds).
  - by apply GetCondition_overwrite_other.
  - by apply GetCondition_app_other.
Qed.

Lemma countType_le_1 conds ct : wellFormed conds -> (countType ct conds <= 1)%nat.
Proof.
  intros Hwf. destruct (decide (ct ∈ map CondType conds)) as [H|H].
  - by rewrite countType_wellFormed.
  - rewrite countType_absent by done. lia.
Qed.

Lemma ConditionStatus_eqb_eq (a b : ConditionStatus) :
  ConditionStatus_eqb a b = true <-> a = b.
Proof. destruct a, b; simpl; split; congruence. Qed.

Lemma GetCondition_SetCondition_stamped conds new :
  GetCondition (CondType new) (SetCondition conds new)
  = Some (stamped new (transitionTime (GetCondition (CondType new) conds) new)).
Proof.
  rewrite GetCondition_SetCondition. f_equal.
  destruct (GetCondition (CondType new) conds) as [old|]; [reflexivity|].
  by destruct new.
Qed.

(** C8. On a status that holds at most one condition per type, setting a
    condition [c1] and then a condition [c2] of another type leaves exactly
    one condition of each of the two types (and never more than one of any
    type); the one that is current for each type is the one just set, with
    its status, reason and message.  Setting a condition whose type is
    already there replaces the one of that type: the list keeps its length,
    and the last transition time moves to the new one only if the status
    differs from the old one. *)
Theorem SetConditions_replace_not_append conds c1 c2 :
  wellFormed conds ->
  CondType c1 <> CondType c2 ->
  let conds' := SetConditions (SetConditions conds [c1]) [c2] in
  countType (CondType c1) conds' = 1%nat /\
  countType (CondType c2) conds' = 1%nat /\
  (forall ct, (countType ct conds' <= 1)%nat) /\
  GetCondition (CondType c1) conds'
    = Some (stamped c1 (transitionTime (GetCondition (CondType c1) conds) c1)) /\
  GetCondition (CondType c2) conds'
    = Some (stamped c2 (transitionTime (GetCondition (CondType c2) conds) c2)) /\
  (forall old new,
      GetCondition (CondType new) conds = Some old ->
      let after := SetConditions conds [new] in
      length after = length conds /\
      countType (CondType new) after = 1%nat /\
      GetCondition (CondType new) after
        = Some (stamped new (if ConditionStatus_eqb (Status old) (Status new)
                             then LastTransitionTime old
                             else LastTransitionTime new))).
Proof.
  intros Hwf Hne conds'. subst conds'. unfold SetConditions. simpl.
  assert (Hwf1 : wellFormed (SetCondition conds c1)) by by apply SetCondition_wellFormed.
  assert (Hwf2 : wellFormed (SetCondition (SetCondition conds c1) c2))
    by by apply SetCondition_wellFormed.
  repeat split.
  - apply countType_wellFormed; [done|].
    apply SetCondition_elem_other, SetCondition_elem.
  - apply countType_wellFormed; [done|]. apply SetCondition_elem.
  - intros ct. by apply countType_le_1.
  - rewrite GetCondition_SetCondition_other by congruence.
    apply GetCondition_SetCondition_stamped.
  - rewrite GetCondition_SetCondition_stamped.
    by rewrite GetCondition_SetCondition_other.
  - assert (Hin : CondType new ∈ map CondType conds).
    { destruct (decide (CondType new ∈ map CondType conds)) as [|Hn]; [done|].
      apply GetCondition_None in Hn. congruence. }
    rewrite SetCondition_present by done. apply overwrite_length.
  - apply countType_wellFormed; [by apply SetCondition_wellFormed|].
    apply SetCondition_elem.
  - rewrite GetCondition_SetCondition_stamped. unfold transitionTime. by rewrite H.
Qed.

(** Set again with the same status, a condition keeps its transition
    time and takes the new reason. *)
Example SetConditions_same_status :
  SetConditions [Creating 1%Z; Available 2%Z]
    [ {| CondType := TypeCreating; Status := ConditionTrue; LastTransitionTime := 9%Z;
         Reason := "Retrying"; Message := "" |} ]
  = [ {| CondType := TypeCreating; Status := ConditionTrue; LastTransitionTime := 1%Z;
         Reason := "Retrying"; Message := "" |}; Available 2%Z ].
Proof. reflexivity. Qed.

(** A status with a [Creating] condition whose status was false: it is
    set to [Creating] and then to [Available]. *)
Lemma SetConditions_replace_not_append_witness :
  let conds := [ {| CondType := TypeCreating; Status := ConditionFalse;
                    LastTransitionTime := 1%Z; Reason := "Pending"; Message := "" |} ] in
  let conds' := SetConditions (SetConditions conds [Creating 5%Z]) [Available 7%Z] in
  conds' = [Creating 5%Z; Available 7%Z] /\
  countType TypeCreating conds' = 1%nat /\
  countType TypeAvailable conds' = 1%nat.
Proof.
  intros conds conds'.
  assert (Hwf : wellFormed conds) by (apply NoDup_singleton).
  assert (Hne : CondType (Creating 5%Z) <> CondType (Available 7%Z)) by discriminate.
  pose proof (SetConditions_replace_not_append conds (Creating 5%Z) (Available 7%Z) Hwf Hne)
    as (H1 & H2 & _).
  split; [reflexivity|]. split; [exact H1 | exact H2].
Defined.

End ConditionFacts.

(** ** The ELB-attachment controller *)

Section ELBAttachmentFacts.

Import runtimev1alpha1 elbattachment.

Context {Observation Foreign : Type}.
Variable IsELBNotFound : resource.ErrorIs.
Variable IsVPCNotFoundErr : resource.ErrorIs.

Abbreviation CR := (v1alpha1.ELBAttachment Observation).
Abbreviation W := (@elbattachment.World Observation Foreign).
Abbreviation Connect := (@elbattachment.Connect Observation Foreign).
Abbreviation Observe := (@elbattachment.Observe Observation Foreign).
Abbreviation Create := (@elbattachment.Create Observation Foreign).
Abbreviation Update := (@elbattachment.Update Observation Foreign).
Abbreviation Delete := (@elbattachment.Delete Observation Foreign).

Implicit Types (cr : CR) (c : elb.Client) (k : client.Client) (t : Time)
  (j : list Event) (w : W).

(** What the resource looks like once [mk] has been set at time [t]. *)
Lemma SetConditions_frame cr (cs : list Condition) :
  v1alpha1.Spec (v1alpha1.SetConditions cr cs) = v1alpha1.Spec cr /\
  v1alpha1.AtProvider (v1alpha1.Status (v1alpha1.SetConditions cr cs))
    = v1alpha1.AtProvider (v1alpha1.Status cr).
Proof. split; reflexivity. Qed.

(** [Create] runs to the end whatever the registration returns: the
    condition is written first, the request sent next, and the error of the
    request comes back wrapped. *)
Lemma Create_run k c cr t j :
  Create {| ekube := k; client := Some c |}
         {| object := resource.Ptr cr; now := t; journal := j |}
  = Done ((managed.ExternalCreation_zero,
           errors.Wrap (snd (elb.RegisterInstancesWithLoadBalancerRequest c (registerInput cr)))
                       errCreate),
          {| object := resource.Ptr (v1alpha1.SetConditions cr [Creating t]);
             now := t;
             journal := j ++ [StatusSetConditions [Creating t];
                              Send (RegisterInstancesWithLoadBalancer (registerInput cr))] |}).
Proof.
  unfold elbattachment.Create, StatusSetConditions_now, send, registerInput, aws.String.
  run_phase.
  destruct (elb.RegisterInstancesWithLoadBalancerRequest c _) as [out err].
  simpl. by rewrite <- app_assoc.
Qed.

(** C1. For an ELBAttachment, [Create] writes the condition [Creating] to
    the status and only then sends the registration; whatever the call
    returns, the returned error is the call's error wrapped with the create
    tag (so an error [cause] comes back as [cause] wrapped), the creation
    result is empty, the resource's conditions hold a [Creating] condition,
    and its desired and observed state are as before. *)
Theorem Create_sets_Creating_before_call k c cr t j out (err : error) :
  elb.RegisterInstancesWithLoadBalancerRequest c (registerInput cr) = (out, err) ->
  exists cr',
    Create {| ekube := k; client := Some c |}
           {| object := resource.Ptr cr; now := t; journal := j |}
    = Done ((managed.ExternalCreation_zero, errors.Wrap err errCreate),
            {| object := resource.Ptr cr'; now := t;
               journal := j ++ [StatusSetConditions [Creating t];
                                Send (RegisterInstancesWithLoadBalancer (registerInput cr))] |}) /\
    (forall cause, err = Some cause ->
                   errors.Wrap err errCreate = Some (ErrWrap cause errCreate)) /\
    (exists cur, GetCondition TypeCreating (v1alpha1.Conditions (v1alpha1.Status cr')) = Some cur /\
                 Reason cur = Reason (Creating t) /\ Status cur = Status (Creating t)) /\
    v1alpha1.AtProvider (v1alpha1.Status cr') = v1alpha1.AtProvider (v1alpha1.Status cr) /\
    v1alpha1.Spec cr' = v1alpha1.Spec cr.
Proof.
  intros Hcall. exists (v1alpha1.SetConditions cr [Creating t]).
  split; [|split; [|split; [|split]]].
  - by rewrite Create_run, Hcall.
  - intros cause ->. reflexivity.
  - simpl. change TypeCreating with (CondType (Creating t)).
    rewrite GetCondition_SetCondition_stamped. eexists. split; [reflexivity|]. done.
  - reflexivity.
  - reflexivity.
Qed.

(** C4 (as amended). When the registration succeeds, [Create] returns the
    empty creation result and a nil error, whatever the response [out] holds:
    the response is dropped, and the resource changes by the [Creating]
    condition only. *)
Theorem Create_success_discards_response k c cr t j out :
  elb.RegisterInstancesWithLoadBalancerRequest c (registerInput cr) = (out, None) ->
  Create {| ekube := k; client := Some c |}
         {| object := resource.Ptr cr; now := t; journal := j |}
  = Done ((managed.ExternalCreation_zero, None),
          {| object := resource.Ptr (v1alpha1.SetConditions cr [Creating t]); now := t;
             journal := j ++ [StatusSetConditions [Creating t];
                              Send (RegisterInstancesWithLoadBalancer (registerInput cr))] |}) /\
  managed.CreationConnectionDetails managed.ExternalCreation_zero = ∅ /\
  v1alpha1.Spec (v1alpha1.SetConditions cr [Creating t]) = v1alpha1.Spec cr /\
  v1alpha1.AtProvider (v1alpha1.Status (v1alpha1.SetConditions cr [Creating t]))
    = v1alpha1.AtProvider (v1alpha1.Status cr).
Proof.
  intros Hcall. rewrite Create_run, Hcall. repeat split.
Qed.

(** ** Observe *)

Lemma findInstance_absent (instances : list awselb.Instance) (wanted : string) :
  Forall (fun v => exists id, awselb.InstanceId v = Some id /\ id <> wanted) instances ->
  findInstance instances wanted "" = Some "".
Proof.
  induction 1 as [|v rest (id & Hid & Hne) _ IH]; simpl; [reflexivity|].
  rewrite Hid. apply String.eqb_neq in Hne. by rewrite Hne.
Qed.

(** A load balancer on which the wanted instance is not registered: the
    resource does not exist. *)
Lemma Observe_absent k c cr t j observed :
  elb.DescribeLoadBalancersRequest c (describeInput cr)
    = (Some {| awselb.LoadBalancerDescriptions := [observed] |}, None) ->
  Forall (fun v => exists id, awselb.InstanceId v = Some id /\
                              id <> v1alpha1.InstanceID (v1alpha1.ForProvider (v1alpha1.Spec cr)))
         (awselb.Instances observed) ->
  Observe IsELBNotFound {| ekube := k; client := Some c |}
          {| object := resource.Ptr cr; now := t; journal := j |}
  = Done ((managed.ExternalObservation_zero, None),
          {| object := resource.Ptr cr; now := t;
             journal := j ++ [Send (DescribeLoadBalancers (describeInput cr))] |}).
Proof.
  intros Hcall Habsent.
  unfold elbattachment.Observe, send. run_phase. fold (describeInput cr).
  rewrite Hcall. simpl. by rewrite findInstance_absent.
Qed.

(** C2. When the describe call of [Observe] fails with [cause]: if the
    kind's not-found predicate recognises the error, [Observe] returns
    "exists=false" and a nil error, and leaves the resource as it was, which
    is exactly what it does for a load balancer that lacks the instance; if
    the predicate does not recognise it, [Observe] returns [cause] wrapped
    with the observe tag. *)
Theorem Observe_describe_error k c cr t j out cause :
  elb.DescribeLoadBalancersRequest c (describeInput cr) = (out, Some cause) ->
  let e := {| ekube := k; client := Some c |} in
  let w := {| object := resource.Ptr cr; now := t; journal := j |} in
  Observe IsELBNotFound e w
  = Done ((managed.ExternalObservation_zero,
           if IsELBNotFound (Some cause) then None else Some (ErrWrap cause errDescribe)),
          {| object := resource.Ptr cr; now := t;
             journal := j ++ [Send (DescribeLoadBalancers (describeInput cr))] |}) /\
  managed.ResourceExists managed.ExternalObservation_zero = false /\
  (IsELBNotFound (Some cause) = true ->
   forall k' c' observed,
     elb.DescribeLoadBalancersRequest c' (describeInput cr)
       = (Some {| awselb.LoadBalancerDescriptions := [observed] |}, None) ->
     Forall (fun v => exists id, awselb.InstanceId v = Some id /\
                                 id <> v1alpha1.InstanceID (v1alpha1.ForProvider (v1alpha1.Spec cr)))
            (awselb.Instances observed) ->
     Observe IsELBNotFound e w = Observe IsELBNotFound {| ekube := k'; client := Some c' |} w).
Proof.
  intros Hcall e w.
  assert (Hrun : Observe IsELBNotFound e w
    = Done ((managed.ExternalObservation_zero,
             if IsELBNotFound (Some cause) then None else Some (ErrWrap cause errDescribe)),
            {| object := resource.Ptr cr; now := t;
               journal := j ++ [Send (DescribeLoadBalancers (describeInput cr))] |})).
  { unfold elbattachment.Observe, send, e, w. run_phase. fold (describeInput cr).
    rewrite Hcall. simpl. unfold resource.Ignore.
    by destruct (IsELBNotFound (Some cause)). }
  split; [exact Hrun|]. split; [reflexivity|].
  intros Hnf k' c' observed Hcall' Habsent.
  rewrite Hrun, Hnf. unfold w. by rewrite (Observe_absent k' c' cr t j observed).
Qed.

(** C10. When the describe call succeeds with a number of load-balancer
    descriptions other than one, none included, [Observe] returns the
    multiple-items error and an empty observation, and leaves the resource
    as it was. *)
Theorem Observe_not_exactly_one k c cr t j response :
  elb.DescribeLoadBalancersRequest c (describeInput cr) = (Some response, None) ->
  length (awselb.LoadBalancerDescriptions response) <> 1%nat ->
  Observe IsELBNotFound {| ekube := k; client := Some c |}
          {| object := resource.Ptr cr; now := t; journal := j |}
  = Done ((managed.ExternalObservation_zero, Some (ErrNew errMultipleItems)),
          {| object := resource.Ptr cr; now := t;
             journal := j ++ [Send (DescribeLoadBalancers (describeInput cr))] |}).
Proof.
  intros Hcall Hlen.
  unfold elbattachment.Observe, send. run_phase. fold (describeInput cr).
  rewrite Hcall. simpl.
  apply Nat.eqb_neq in Hlen. by rewrite Hlen.
Qed.

(** ** Delete *)

(** [Delete] writes [Deleting], sends the deregistration, and returns the
    call's error wrapped, unless [ec2.IsVPCNotFoundErr] recognises it. *)
Lemma Delete_run k c cr t j :
  Delete IsVPCNotFoundErr {| ekube := k; client := Some c |}
         {| object := resource.Ptr cr; now := t; journal := j |}
  = Done (errors.Wrap
            (resource.Ignore IsVPCNotFoundErr
               (snd (elb.DeregisterInstancesFromLoadBalancerRequest c (deregisterInput cr))))
            errDelete,
          {| object := resource.Ptr (v1alpha1.SetConditions cr [Deleting t]); now := t;
             journal := j ++ [StatusSetConditions [Deleting t];
                              Send (DeregisterInstancesFromLoadBalancer (deregisterInput cr))] |}).
Proof.
  unfold elbattachment.Delete, StatusSetConditions_now, send, deregisterInput, aws.String.
  run_phase.
  destruct (elb.DeregisterInstancesFromLoadBalancerRequest c _) as [out err].
  simpl. by rewrite <- app_assoc.
Qed.

(** X7. Whatever error the deregistration fails with, [Delete] returns it
    wrapped with the delete tag, unless [ec2.IsVPCNotFoundErr], the
    predicate it consults, recognises it; [Deleting] was set before the one
    request was sent. *)
Lemma Delete_error_unless_VPC_not_found k c cr t j out cause :
  elb.DeregisterInstancesFromLoadBalancerRequest c (deregisterInput cr) = (out, Some cause) ->
  IsVPCNotFoundErr (Some cause) = false ->
  Delete IsVPCNotFoundErr {| ekube := k; client := Some c |}
         {| object := resource.Ptr cr; now := t; journal := j |}
  = Done (Some (ErrWrap cause errDelete),
          {| object := resource.Ptr (v1alpha1.SetConditions cr [Deleting t]); now := t;
             journal := j ++ [StatusSetConditions [Deleting t];
                              Send (DeregisterInstancesFromLoadBalancer
                                      (deregisterInput cr))] |}).
Proof.
  intros Hcall Hvpc. rewrite Delete_run, Hcall. simpl.
  unfold resource.Ignore. by rewrite Hvpc.
Qed.

(** ** Update, and inputs of the wrong type *)

(** C9. [Update] returns the empty update result and a nil error on every
    input, a resource of another kind and the nil interface included; the
    world it returns is the one it was given: the object is untouched and
    the journal has no new entry (no condition written, no call made). *)
Theorem Update_is_a_no_op (e : external) w :
  Update e w = Done ((managed.ExternalUpdate_zero, None), w) /\
  managed.UpdateConnectionDetails managed.ExternalUpdate_zero = ∅.
Proof. split; reflexivity. Qed.

(** C5 (as amended). On an input that is not an ELBAttachment, [Connect],
    [Observe], [Create] and [Delete] fail with the invalid-input error and
    return the world they were given (object untouched, nothing added to the
    journal: no condition written, no call made); [Update] makes no type
    check: it returns the empty result and a nil error, and it too returns
    the world it was given. *)
Theorem wrong_type_is_invalid_input (c : connector) (e : external) w :
  resource.assertOK (object w) = false ->
  Connect c w = Done ((None, Some (ErrNew errUnexpectedObject)), w) /\
  Observe IsELBNotFound e w
    = Done ((managed.ExternalObservation_zero, Some (ErrNew errUnexpectedObject)), w) /\
  Create e w = Done ((managed.ExternalCreation_zero, Some (ErrNew errUnexpectedObject)), w) /\
  Delete IsVPCNotFoundErr e w = Done (Some (ErrNew errUnexpectedObject), w) /\
  Update e w = Done ((managed.ExternalUpdate_zero, None), w).
Proof.
  destruct w as [[cr|o|] t j]; simpl; [discriminate| |]; intros _; repeat split.
Qed.

(** ** Connect *)

(** C6 (as amended). For an ELBAttachment, [Connect] returns, leaves the
    resource as it was, and fails exactly when the provider cannot be
    fetched, or the provider is not in ambient-identity mode and has no
    credential secret reference, or the credential secret cannot be fetched,
    or the client constructor fails.  In the first three cases no handle is
    returned and the error is the provider-not-found, the
    credential-source-missing or the credential-fetch error.  Otherwise the
    client constructor is called last, with the provider's region and the
    empty credentials (ambient mode) or the secret's bytes; the handle wraps
    what the constructor returned, and the constructor's error, if any, comes
    back wrapped with the client-construction tag. *)
Theorem Connect_fails_exactly_when (c : connector) cr t j :
  exists handle err j',
    Connect c {| object := resource.Ptr cr; now := t; journal := j |}
    = Done ((handle, err), {| object := resource.Ptr cr; now := t; journal := j ++ j' |}) /\
    (err <> None <->
       (exists cause, providerFetchFails c cr cause) \/
       credentialSourceMissing c cr \/
       (exists cause, credentialFetchFails c cr cause) \/
       (exists cause, constructionFails c cr cause)) /\
    (forall cause, providerFetchFails c cr cause ->
       handle = None /\ err = Some (ErrWrap cause errGetProvider)) /\
    (credentialSourceMissing c cr ->
       handle = None /\ err = Some (ErrNew errGetProviderSecret)) /\
    (forall cause, credentialFetchFails c cr cause ->
       handle = None /\ err = Some (ErrWrap cause errGetProviderSecret)) /\
    (forall region credentials auth, resolved c cr region credentials auth ->
       handle = Some {| ekube := kube c;
                        client := fst (newClientFn c credentials region auth) |} /\
       err = errors.Wrap (snd (newClientFn c credentials region auth)) errCreateELBClient /\
       last j' = Some (NewClient credentials region auth)).
Proof.
  unfold providerFetchFails, credentialSourceMissing, credentialFetchFails,
    constructionFails, resolved, elbattachment.Connect.
  run_phase. fold (providerKey cr).
  destruct (client.GetProvider (kube c) (providerKey cr)) as [p [cause|]] eqn:Hp; simpl.
  { eexists _, _, [_]. split; [reflexivity|].
    split; [|split; [|split; [|split]]].
    - split; [|done]. intros _. left. by exists cause.
    - intros cause' [= <-]. done.
    - intros (p' & H & _). congruence.
    - intros cause' (p' & ref & H & _). congruence.
    - intros region creds auth (p' & H & _). congruence. }
  fold (ambient p). destruct (ambient p) eqn:Hamb.
  { run_phase.
    destruct (newClientFn c [] (awsv1alpha3.Region (awsv1alpha3.Spec p))
                awsclients.UsePodServiceAccount) as [elbClient err] eqn:Hnew.
    simpl. eexists _, _, [_; _]. split; [by rewrite <- app_assoc|].
    split; [|split; [|split; [|split]]].
    - split.
      + intros Herr. right. right. right.
        destruct err as [cause|]; [|done]. exists cause.
        exists (awsv1alpha3.Region (awsv1alpha3.Spec p)), [], awsclients.UsePodServiceAccount.
        split; [|by rewrite Hnew]. exists p. split; [done|]. split; [done|]. by left.
      + intros [[cause H]|[(p' & H & Ha & _)|[(cause & p' & ref & H & Ha & _)|
                 (cause & region & creds & auth & (p' & H & -> & Hmode) & Hfail)]]].
        * discriminate.
        * congruence.
        * congruence.
        * injection H as <-.
          destruct Hmode as [(_ & -> & ->)|(Ha & _)]; [|congruence].
          rewrite Hnew in Hfail. simpl in Hfail. by subst err.
    - intros cause H. discriminate.
    - intros (p' & H & Ha & _). congruence.
    - intros cause (p' & ref & H & Ha & _). congruence.
    - intros region creds auth (p' & H & -> & Hmode). injection H as <-.
      destruct Hmode as [(_ & -> & ->)|(Ha & _)]; [|congruence].
      rewrite Hnew. done. }
  unfold awsv1alpha3.GetCredentialsSecretReference.
  destruct (awsv1alpha3.CredentialsSecretRef (awsv1alpha3.Spec p)) as [ref|] eqn:Href.
  2:{ run_phase. eexists _, _, [_]. split; [reflexivity|].
      split; [|split; [|split; [|split]]].
      - split; [|done]. intros _. right. left. by exists p.
      - intros cause H. discriminate.
      - done.
      - intros cause (p' & ref & H & _ & Hr & _). congruence.
      - intros region creds auth (p' & H & -> & Hmode). injection H as <-.
        destruct Hmode as [(Ha & _)|(_ & ref & s & Hr & _)]; congruence. }
  run_phase. fold (secretKey ref).
  destruct (client.GetSecret (kube c) (secretKey ref)) as [s [cause|]] eqn:Hs; simpl.
  { eexists _, _, [_; _]. split; [by rewrite <- app_assoc|].
    split; [|split; [|split; [|split]]].
    - split; [|done]. intros _. right. right. left. exists cause, p, ref. by rewrite Hs.
    - intros cause' H. discriminate.
    - intros (p' & H & _ & Hr). congruence.
    - intros cause' (p' & ref' & H & _ & Hr & Hf).
      assert (p' = p) as -> by congruence. assert (ref' = ref) as -> by congruence.
      rewrite Hs in Hf. simpl in Hf. by injection Hf as <-.
    - intros region creds auth (p' & H & -> & Hmode). injection H as <-.
      destruct Hmode as [(Ha & _)|(_ & ref' & s' & Hr & Hs' & _)]; [congruence|].
      assert (ref' = ref) as -> by congruence. congruence. }
  destruct (newClientFn c (corev1.DataAt s (awsv1alpha3.Key ref))
              (awsv1alpha3.Region (awsv1alpha3.Spec p))
              awsclients.UseProviderSecret) as [elbClient err] eqn:Hnew.
  simpl. eexists _, _, [_; _; _]. split; [by rewrite <- !app_assoc|].
  split; [|split; [|split; [|split]]].
  - split.
    + intros Herr. right. right. right.
      destruct err as [cause|]; [|done]. exists cause.
      exists (awsv1alpha3.Region (awsv1alpha3.Spec p)),
        (corev1.DataAt s (awsv1alpha3.Key ref)), awsclients.UseProviderSecret.
      split; [|by rewrite Hnew]. exists p. split; [done|]. split; [done|].
      right. split; [done|]. by exists ref, s.
    + intros [[cause H]|[(p' & H & _ & Hr)|[(cause & p' & ref' & H & _ & Hr & Hf)|
               (cause & region & creds & auth & (p' & H & -> & Hmode) & Hfail)]]].
      * discriminate.
      * congruence.
      * assert (p' = p) as -> by congruence. assert (ref' = ref) as -> by congruence.
        rewrite Hs in Hf. discriminate.
      * injection H as <-.
        destruct Hmode as [(Ha & _)|(_ & ref' & s' & Hr & Hs' & -> & ->)]; [congruence|].
        assert (ref' = ref) as -> by congruence.
        assert (s' = s) as -> by congruence.
        rewrite Hnew in Hfail. simpl in Hfail. by subst err.
  - intros cause H. discriminate.
  - intros (p' & H & _ & Hr). congruence.
  - intros cause (p' & ref' & H & _ & Hr & Hf).
    assert (p' = p) as -> by congruence. assert (ref' = ref) as -> by congruence.
    rewrite Hs in Hf. discriminate.
  - intros region creds auth (p' & H & -> & Hmode). injection H as <-.
    destruct Hmode as [(Ha & _)|(_ & ref' & s' & Hr & Hs' & -> & ->)]; [congruence|].
    assert (ref' = ref) as -> by congruence.
    assert (s' = s) as -> by congruence.
    rewrite Hnew. done.
Qed.

End ELBAttachmentFacts.

(** ** The controller on the fixtures *)

Section ELBAttachmentInstances.

Import runtimev1alpha1 elbattachment.

(** The test's "ClientError": the registration fails with [errBoom]. *)
Lemma Create_sets_Creating_before_call_witness :
  elb.RegisterInstancesWithLoadBalancerRequest (fixtures.failing fixtures.errBoom)
    (registerInput fixtures.attachment) = (None, Some fixtures.errBoom) /\
  exists cr',
    Create (fixtures.handle (fixtures.failing fixtures.errBoom))
           (fixtures.world (resource.Ptr fixtures.attachment))
    = Done ((managed.ExternalCreation_zero, Some (ErrWrap fixtures.errBoom errCreate)),
            {| object := resource.Ptr cr'; now := 42%Z;
               journal := [StatusSetConditions [Creating 42%Z];
                           Send (RegisterInstancesWithLoadBalancer
                                   (registerInput fixtures.attachment))] |}) /\
    v1alpha1.Conditions (v1alpha1.Status cr') = [Creating 42%Z] /\
    v1alpha1.AtProvider (v1alpha1.Status cr') = "observed".
Proof.
  split; [reflexivity|].
  destruct (Create_sets_Creating_before_call (Foreign := unit) fixtures.kubeNone
              (fixtures.failing fixtures.errBoom) fixtures.attachment 42%Z []
              None (Some fixtures.errBoom) eq_refl)
    as (cr' & Hrun & _ & _ & Hat & _).
  exists cr'. split; [exact Hrun|].
  injection Hrun as <-. split; reflexivity.
Defined.

(** The instance is registered with the load balancer: the resource
    exists and is up to date, and [Available] is set. *)
Example Observe_registered :
  Observe fixtures.isELBNotFound (fixtures.handle (fixtures.serving ["i-0999"; "i-0123"] []))
          (fixtures.world (resource.Ptr fixtures.attachment))
  = Done (({| managed.ResourceExists := true; managed.ResourceUpToDate := true |}, None),
          {| object := resource.Ptr (v1alpha1.SetConditions fixtures.attachment [Available 42%Z]);
             now := 42%Z;
             journal := [Send (DescribeLoadBalancers (describeInput fixtures.attachment));
                         StatusSetConditions [Available 42%Z]] |}).
Proof. reflexivity. Qed.

(** An instance without an id in the description: the dereference panics. *)
Example Observe_nil_instance_id :
  Observe (Foreign := unit) fixtures.isELBNotFound
          (fixtures.handle
             {| elb.DescribeLoadBalancersRequest := fun _ =>
                  (Some {| awselb.LoadBalancerDescriptions :=
                             [{| awselb.Instances := [{| awselb.InstanceId := None |}] |}] |},
                   None);
                elb.RegisterInstancesWithLoadBalancerRequest := fun _ => (None, None);
                elb.DeregisterInstancesFromLoadBalancerRequest := fun _ => (None, None) |})
          (fixtures.world (resource.Ptr fixtures.attachment))
  = Panic "invalid memory address or nil pointer dereference".
Proof. reflexivity. Qed.

(** The tests' "Successful" connection: the secret's bytes and the
    provider's region reach the client constructor. *)
Example Connect_with_secret :
  Connect {| kube := fixtures.kubeWith false; newClientFn := fun _ _ _ => (None, None) |}
          (fixtures.world (resource.Ptr fixtures.attachment))
  = Done ((Some {| ekube := fixtures.kubeWith false; client := None |}, None),
          {| object := resource.Ptr fixtures.attachment; now := 42%Z;
             journal := [KubeGet ProviderKind (providerKey fixtures.attachment);
                         KubeGet SecretKind
                           {| types.Namespace := fixtures.secretNamespace;
                              types.Name := fixtures.connectionSecretName |};
                         NewClient fixtures.credData fixtures.testRegion
                           awsclients.UseProviderSecret] |}).
Proof. reflexivity. Qed.

(** C4, as stated, fails: the external system answers the registration
    with the instances it has registered, and nothing of the answer reaches
    the creation result or the resource; a different answer gives the very
    same outcome. *)
Lemma Create_records_no_identity :
  let answered := fixtures.serving [] ["i-0123"; "i-0456"] in
  let other := fixtures.serving [] ["i-0789"] in
  let w := fixtures.world (resource.Ptr fixtures.attachment) in
  let w' := {| object := resource.Ptr (v1alpha1.SetConditions fixtures.attachment [Creating 42%Z]);
               now := 42%Z;
               journal := [StatusSetConditions [Creating 42%Z];
                           Send (RegisterInstancesWithLoadBalancer
                                   (registerInput fixtures.attachment))] |} in
  elb.RegisterInstancesWithLoadBalancerRequest answered (registerInput fixtures.attachment)
    = (Some {| awselb.RegisteredInstances :=
                 [{| awselb.InstanceId := Some "i-0123" |};
                  {| awselb.InstanceId := Some "i-0456" |}] |}, None) /\
  Create (fixtures.handle answered) w = Done ((managed.ExternalCreation_zero, None), w') /\
  managed.CreationConnectionDetails managed.ExternalCreation_zero = ∅ /\
  v1alpha1.SetConditions fixtures.attachment [Creating 42%Z]
    = {| v1alpha1.Spec := v1alpha1.Spec fixtures.attachment;
         v1alpha1.Status := {| v1alpha1.Conditions := [Creating 42%Z];
                               v1alpha1.AtProvider := "observed" |} |} /\
  Create (fixtures.handle other) w = Create (fixtures.handle answered) w.
Proof. repeat split. Qed.

Lemma Create_success_discards_response_witness :
  elb.RegisterInstancesWithLoadBalancerRequest (fixtures.serving [] ["i-0123"])
    (registerInput fixtures.attachment)
    = (Some {| awselb.RegisteredInstances := [{| awselb.InstanceId := Some "i-0123" |}] |}, None) /\
  Create (fixtures.handle (fixtures.serving [] ["i-0123"]))
         (fixtures.world (resource.Ptr fixtures.attachment))
  = Done ((managed.ExternalCreation_zero, None),
          {| object := resource.Ptr (v1alpha1.SetConditions fixtures.attachment [Creating 42%Z]);
             now := 42%Z;
             journal := [StatusSetConditions [Creating 42%Z];
                         Send (RegisterInstancesWithLoadBalancer
                                 (registerInput fixtures.attachment))] |}).
Proof.
  split; [reflexivity|].
  exact (proj1 (Create_success_discards_response (Foreign := unit) fixtures.kubeNone
                  (fixtures.serving [] ["i-0123"]) fixtures.attachment 42%Z [] _ eq_refl)).
Defined.

(** The describe call fails with the load balancer's not-found error. *)
Lemma Observe_describe_error_witness :
  elb.DescribeLoadBalancersRequest (fixtures.failing fixtures.loadBalancerNotFound)
    (describeInput fixtures.attachment) = (None, Some fixtures.loadBalancerNotFound) /\
  Observe fixtures.isELBNotFound (fixtures.handle (fixtures.failing fixtures.loadBalancerNotFound))
          (fixtures.world (resource.Ptr fixtures.attachment))
  = Done ((managed.ExternalObservation_zero, None),
          {| object := resource.Ptr fixtures.attachment; now := 42%Z;
             journal := [Send (DescribeLoadBalancers (describeInput fixtures.attachment))] |}).
Proof.
  split; [reflexivity|].
  exact (proj1 (Observe_describe_error (Foreign := unit) fixtures.isELBNotFound fixtures.kubeNone
                  (fixtures.failing fixtures.loadBalancerNotFound) fixtures.attachment 42%Z []
                  None fixtures.loadBalancerNotFound eq_refl)).
Defined.

(** The describe call finds no load balancer description. *)
Lemma Observe_not_exactly_one_witness :
  elb.DescribeLoadBalancersRequest fixtures.describingNone (describeInput fixtures.attachment)
    = (Some {| awselb.LoadBalancerDescriptions := [] |}, None) /\
  Observe fixtures.isELBNotFound (fixtures.handle fixtures.describingNone)
          (fixtures.world (resource.Ptr fixtures.attachment))
  = Done ((managed.ExternalObservation_zero, Some (ErrNew errMultipleItems)),
          {| object := resource.Ptr fixtures.attachment; now := 42%Z;
             journal := [Send (DescribeLoadBalancers (describeInput fixtures.attachment))] |}).
Proof.
  split; [reflexivity|].
  apply (Observe_not_exactly_one (Foreign := unit) fixtures.isELBNotFound fixtures.kubeNone
           fixtures.describingNone fixtures.attachment 42%Z []
           {| awselb.LoadBalancerDescriptions := [] |} eq_refl).
  simpl. lia.
Defined.

(** C3: the deregistration fails because the load balancer is gone.
    [Observe] reads this very error as "absent" ([elb.IsELBNotFound]);
    [Delete] asks [ec2.IsVPCNotFoundErr], which does not know it, and
    returns the error wrapped with the delete tag.  The condition [Deleting]
    was written before the call. *)
Theorem Delete_absent_load_balancer_fails :
  let e := fixtures.handle (fixtures.failing fixtures.loadBalancerNotFound) in
  let w := fixtures.world (resource.Ptr fixtures.attachment) in
  Delete fixtures.isVPCNotFoundErr e w
  = Done (Some (ErrWrap fixtures.loadBalancerNotFound errDelete),
          {| object := resource.Ptr (v1alpha1.SetConditions fixtures.attachment [Deleting 42%Z]);
             now := 42%Z;
             journal := [StatusSetConditions [Deleting 42%Z];
                         Send (DeregisterInstancesFromLoadBalancer
                                 (deregisterInput fixtures.attachment))] |}) /\
  fixtures.isELBNotFound (Some fixtures.loadBalancerNotFound) = true /\
  fixtures.isVPCNotFoundErr (Some fixtures.loadBalancerNotFound) = false /\
  Observe fixtures.isELBNotFound e w
  = Done ((managed.ExternalObservation_zero, None),
          {| object := resource.Ptr fixtures.attachment; now := 42%Z;
             journal := [Send (DescribeLoadBalancers (describeInput fixtures.attachment))] |}).
Proof. repeat split. Qed.

(** C5, as stated, fails for [Update]: handed the nil interface, it
    returns a nil error, not the invalid-input error. *)
Lemma Update_accepts_wrong_type :
  let w := fixtures.world resource.Nil in
  resource.assertOK (object w) = false /\
  Update (fixtures.handle (fixtures.failing fixtures.errBoom)) w
  = Done ((managed.ExternalUpdate_zero, None), w) /\
  (None : error) <> Some (ErrNew errUnexpectedObject).
Proof. repeat split. discriminate. Qed.

(** The tests' "InValidInput": the nil interface. *)
Lemma wrong_type_is_invalid_input_witness :
  let w := fixtures.world resource.Nil in
  let e := fixtures.handle (fixtures.failing fixtures.errBoom) in
  let c := {| kube := fixtures.kubeWith false; newClientFn := fun _ _ _ => (None, None) |} in
  resource.assertOK (object w) = false /\
  Connect c w = Done ((None, Some (ErrNew errUnexpectedObject)), w) /\
  Observe fixtures.isELBNotFound e w
    = Done ((managed.ExternalObservation_zero, Some (ErrNew errUnexpectedObject)), w) /\
  Create e w = Done ((managed.ExternalCreation_zero, Some (ErrNew errUnexpectedObject)), w) /\
  Delete fixtures.isVPCNotFoundErr e w = Done (Some (ErrNew errUnexpectedObject), w) /\
  Update e w = Done ((managed.ExternalUpdate_zero, None), w).
Proof.
  intros w e c. split; [reflexivity|].
  exact (wrong_type_is_invalid_input fixtures.isELBNotFound fixtures.isVPCNotFoundErr
           c e w eq_refl).
Defined.

(** C6, as stated, fails: the provider is fetched and is in
    ambient-identity mode, so none of the three listed causes holds, yet
    [Connect] fails, because the client constructor does; the error comes
    with a handle that wraps what the constructor returned. *)
Lemma Connect_fails_on_client_construction :
  let c := {| kube := fixtures.kubeWith true;
              newClientFn := fun _ _ _ => (None, Some fixtures.errBoom) |} in
  let w := fixtures.world (resource.Ptr fixtures.attachment) in
  client.GetProvider (kube c) (providerKey fixtures.attachment) = (fixtures.providerSA true, None) /\
  ambient (fixtures.providerSA true) = true /\
  ~ (exists cause, providerFetchFails c fixtures.attachment cause) /\
  ~ credentialSourceMissing c fixtures.attachment /\
  ~ (exists cause, credentialFetchFails c fixtures.attachment cause) /\
  Connect c w
  = Done ((Some {| ekube := fixtures.kubeWith true; client := None |},
           Some (ErrWrap fixtures.errBoom errCreateELBClient)),
          {| object := resource.Ptr fixtures.attachment; now := 42%Z;
             journal := [KubeGet ProviderKind (providerKey fixtures.attachment);
                         NewClient [] fixtures.testRegion awsclients.UsePodServiceAccount] |}).
Proof.
  intros c w. split; [reflexivity|]. split; [reflexivity|].
  split; [intros (cause & H); discriminate|].
  split; [intros (p & H & Ha & _); injection H as <-; discriminate|].
  split; [intros (cause & p & ref & H & Ha & _); injection H as <-; discriminate|].
  reflexivity.
Qed.

End ELBAttachmentInstances.

(** ** The group-policy-attachment controller *)

Section GroupPolicyAttachmentFacts.

Import runtimev1alpha1 iamgrouppolicyattachment.

Context {Foreign : Type}.
Variable errUnexpectedObject : string.
Variable errGet : string.
Variable IsErrorNotFound : resource.ErrorIs.

Abbreviation Observe :=
  (@iamgrouppolicyattachment.Observe Foreign errUnexpectedObject errGet IsErrorNotFound).

Lemma findAttached_found (policies : list awsiam.AttachedPolicy) (wanted : string) p :
  p ∈ policies ->
  aws.StringValue (awsiam.PolicyArn p) = wanted ->
  exists attached, findAttached policies wanted = Some attached /\
                   aws.StringValue (awsiam.PolicyArn attached) = wanted.
Proof.
  intros Hin Hp. induction policies as [|q rest IH]; [inversion Hin|]. simpl.
  destruct (String.eqb (aws.StringValue (awsiam.PolicyArn q)) wanted) eqn:E.
  - exists q. split; [reflexivity|]. by apply String.eqb_eq.
  - apply elem_of_cons in Hin as [->|Hin]; [|by apply IH].
    apply String.eqb_neq in E. contradiction.
Qed.

(** C7. For a group-policy attachment whose desired state names a group
    and a policy ARN (in the scenario: "some group" and "some arn"), when
    the list call returns attached policies among which is that ARN,
    [Observe] returns "exists=true, upToDate=true" and a nil error, sets the
    condition [Available], which is then current for its type, and records
    the ARN as the attached policy of the observed state; the desired state
    is as before. *)
Theorem Observe_attached_policy (c : iam.GroupPolicyAttachmentClient)
    (cr : identityv1alpha1.IAMGroupPolicyAttachment) (group arn : string)
    (policies : list awsiam.AttachedPolicy) t (j : list Event) :
  identityv1alpha1.ForProvider (identityv1alpha1.Spec cr)
    = {| identityv1alpha1.GroupName := Some group; identityv1alpha1.PolicyARN := Some arn |} ->
  iam.ListAttachedGroupPoliciesRequest c {| awsiam.GroupName := Some group |}
    = (Some {| awsiam.AttachedPolicies := policies |}, None) ->
  {| awsiam.PolicyArn := Some arn |} ∈ policies ->
  exists cr',
    Observe {| client := Some c |} {| object := resource.Ptr cr; now := t; journal := j |}
    = Done (({| managed.ResourceExists := true; managed.ResourceUpToDate := true |}, None),
            {| object := resource.Ptr cr'; now := t;
               journal := j ++ [Send {| awsiam.GroupName := Some group |};
                                StatusSetConditions [Available t];
                                StatusSetAtProvider
                                  {| identityv1alpha1.AttachedPolicyARN := arn |}] |}) /\
    (exists cur,
        GetCondition TypeAvailable (identityv1alpha1.Conditions (identityv1alpha1.Status cr'))
          = Some cur /\
        Status cur = Status (Available t) /\ Reason cur = Reason (Available t)) /\
    identityv1alpha1.AttachedPolicyARN (identityv1alpha1.AtProvider (identityv1alpha1.Status cr'))
      = arn /\
    identityv1alpha1.Spec cr' = identityv1alpha1.Spec cr.
Proof.
  intros Hspec Hcall Hin.
  destruct (findAttached_found policies arn _ Hin eq_refl) as (attached & Hfind & Harn).
  exists (identityv1alpha1.SetAtProvider
            (identityv1alpha1.SetConditions cr [Available t])
            {| identityv1alpha1.AttachedPolicyARN := arn |}).
  split; [|split; [|split]].
  - unfold iamgrouppolicyattachment.Observe. run_phase.
    rewrite Hspec. simpl. rewrite Hcall. simpl. rewrite Hfind. simpl.
    rewrite Harn. by rewrite <- !app_assoc.
  - simpl. change TypeAvailable with (CondType (Available t)).
    rewrite GetCondition_SetCondition_stamped. eexists. split; [reflexivity|]. done.
  - reflexivity.
  - reflexivity.
Qed.

End GroupPolicyAttachmentFacts.

Section GroupPolicyAttachmentInstances.

Import runtimev1alpha1 iamgrouppolicyattachment.

(** Scenario A, the test's "VaildInput". *)
Lemma Observe_attached_policy_witness :
  iam.ListAttachedGroupPoliciesRequest (fixtures.listing ["some arn"])
    {| awsiam.GroupName := Some "some group" |}
    = (Some {| awsiam.AttachedPolicies := [{| awsiam.PolicyArn := Some "some arn" |}] |}, None) /\
  exists cr',
    Observe (Foreign := unit) "not a group policy attachment" "cannot list" (fun _ => false)
            {| client := Some (fixtures.listing ["some arn"]) |}
            {| object := resource.Ptr fixtures.groupPolicy; now := 42%Z; journal := [] |}
    = Done (({| managed.ResourceExists := true; managed.ResourceUpToDate := true |}, None),
            {| object := resource.Ptr cr'; now := 42%Z;
               journal := [Send {| awsiam.GroupName := Some "some group" |};
                           StatusSetConditions [Available 42%Z];
                           StatusSetAtProvider
                             {| identityv1alpha1.AttachedPolicyARN := "some arn" |}] |}) /\
    identityv1alpha1.Conditions (identityv1alpha1.Status cr') = [Available 42%Z] /\
    identityv1alpha1.AttachedPolicyARN (identityv1alpha1.AtProvider (identityv1alpha1.Status cr'))
      = "some arn".
Proof.
  split; [reflexivity|].
  destruct (Observe_attached_policy (Foreign := unit) "not a group policy attachment"
              "cannot list" (fun _ => false) (fixtures.listing ["some arn"])
              fixtures.groupPolicy "some group" "some arn"
              [{| awsiam.PolicyArn := Some "some arn" |}] 42%Z []
              eq_refl eq_refl (list_elem_of_here _ _))
    as (cr' & Hrun & _ & Harn & _).
  exists cr'. split; [exact Hrun|].
  injection Hrun as <-. split; reflexivity.
Defined.

End GroupPolicyAttachmentInstances.

(** * More of the controller

    Properties of the phases beyond the paths covered above. *)

Section ObserveFacts.

Import runtimev1alpha1 elbattachment.

Context {Observation Foreign : Type}.
Variable IsELBNotFound : resource.ErrorIs.

Abbreviation CR := (v1alpha1.ELBAttachment Observation).
Abbreviation W := (@elbattachment.World Observation Foreign).
Abbreviation Observe := (@elbattachment.Observe Observation Foreign IsELBNotFound).

Implicit Types (cr : CR) (c : elb.Client) (k : client.Client) (t : Time)
  (j : list Event) (w : W) (instances : list awselb.Instance).

Abbreviation wanted cr := (v1alpha1.InstanceID (v1alpha1.ForProvider (v1alpha1.Spec cr))).

(** The loop ends with the wanted id if an instance carries it, with what it
    started from otherwise, provided no instance lacks its id. *)
Lemma findInstance_all_ids instances (id acc : string) :
  Forall (fun v => is_Some (awselb.InstanceId v)) instances ->
  findInstance instances id acc
  = Some (if bool_decide (Some id ∈ map awselb.InstanceId instances) then id else acc).
Proof.
  intros Hall. revert acc.
  induction Hall as [|v rest [i Hi] _ IH]; intros acc; simpl; [reflexivity|].
  rewrite Hi, IH. simpl. f_equal.
  destruct (String.eqb i id) eqn:E.
  - apply String.eqb_eq in E. subst i.
    rewrite (bool_decide_eq_true_2 (Some id ∈ Some id :: _)) by left.
    by destruct (bool_decide _).
  - apply String.eqb_neq in E.
    destruct (bool_decide (Some id ∈ map awselb.InstanceId rest)) eqn:Hin.
    + apply bool_decide_eq_true_1 in Hin.
      by rewrite (bool_decide_eq_true_2 (Some id ∈ Some i :: _)) by by right.
    + apply bool_decide_eq_false_1 in Hin.
      rewrite (bool_decide_eq_false_2 (Some id ∈ Some i :: _)); [done|].
      intros [Heq|H]%elem_of_cons; [congruence | done].
Qed.

(** The loop never ends with anything but the wanted id or what it started
    from. *)
Lemma findInstance_value instances (id acc x : string) :
  findInstance instances id acc = Some x -> x = id \/ x = acc.
Proof.
  revert acc. induction instances as [|v rest IH]; intros acc; simpl.
  - intros [= ->]. by right.
  - destruct (awselb.InstanceId v) as [i|]; [|discriminate]. simpl.
    destruct (String.eqb i id) eqn:E.
    + apply String.eqb_eq in E. subst i. intros H. apply IH in H. tauto.
    + apply IH.
Qed.

(** One instance without id makes the loop panic, wherever it stands. *)
Lemma findInstance_nil_id instances (id acc : string) v :
  v ∈ instances -> awselb.InstanceId v = None ->
  findInstance instances id acc = None.
Proof.
  intros Hin Hv. revert acc.
  induction instances as [|v' rest IH]; intros acc; [inversion Hin|]. simpl.
  apply elem_of_cons in Hin as [<-|Hin].
  - by rewrite Hv.
  - destruct (awselb.InstanceId v'); [by apply IH | reflexivity].
Qed.

(** X1. When the describe call answers with exactly one load balancer, all
    of whose instances carry an id, [Observe] reports the resource as
    existing and up to date exactly when the desired instance id is not
    empty and is among the registered ones; only then does it set
    [Available].  The error is nil either way, and one request is sent. *)
Theorem Observe_exists_iff_registered k c cr t j observed :
  elb.DescribeLoadBalancersRequest c (describeInput cr)
    = (Some {| awselb.LoadBalancerDescriptions := [observed] |}, None) ->
  Forall (fun v => is_Some (awselb.InstanceId v)) (awselb.Instances observed) ->
  let registered :=
    bool_decide (Some (wanted cr) ∈ map awselb.InstanceId (awselb.Instances observed))
    && negb (String.eqb (wanted cr) "") in
  Observe {| ekube := k; client := Some c |}
          {| object := resource.Ptr cr; now := t; journal := j |}
  = Done (({| managed.ResourceExists := registered;
              managed.ResourceUpToDate := registered |}, None),
          {| object := resource.Ptr (if registered
                                     then v1alpha1.SetConditions cr [Available t]
                                     else cr);
             now := t;
             journal := j ++ Send (DescribeLoadBalancers (describeInput cr))
                          :: (if registered then [StatusSetConditions [Available t]] else []) |}).
Proof.
  intros Hcall Hall registered. subst registered.
  unfold elbattachment.Observe, StatusSetConditions_now, send. run_phase.
  fold (describeInput cr). rewrite Hcall. simpl.
  rewrite findInstance_all_ids by done.
  destruct (bool_decide _); simpl.
  - destruct (String.eqb (wanted cr) "") eqn:E; simpl; [reflexivity|].
    by rewrite <- app_assoc.
  - reflexivity.
Qed.

(** X2. An attachment whose desired instance id is empty is never observed
    to exist: whatever the client answers, if [Observe] returns, it reports
    "exists=false" and leaves the resource as it was. *)
Theorem Observe_empty_instance_id_never_exists (e : external) cr t j r (err : error) w' :
  wanted cr = "" ->
  Observe e {| object := resource.Ptr cr; now := t; journal := j |} = Done ((r, err), w') ->
  managed.ResourceExists r = false /\ object w' = resource.Ptr cr.
Proof.
  intros Hempty. unfold elbattachment.Observe, StatusSetConditions_now, send. run_phase.
  destruct (client e) as [c|]; [|discriminate]. run_phase.
  destruct (elb.DescribeLoadBalancersRequest c _) as [response [cause|]]; simpl.
  { intros [= <- _ <-]. done. }
  destruct response as [response|]; [|discriminate].
  destruct (negb _); simpl; [intros [= <- _ <-]; done|].
  destruct (awselb.LoadBalancerDescriptions response !! 0%nat) as [observed|]; [|discriminate].
  rewrite Hempty.
  destruct (findInstance _ "" "") as [instance|] eqn:Hfind; [|discriminate].
  apply findInstance_value in Hfind. assert (instance = "") as -> by tauto.
  simpl. intros [= <- _ <-]. done.
Qed.

(** X3. If the one load balancer described has an instance without id,
    [Observe] panics on the dereference, whether or not the desired instance
    is registered as well. *)
Theorem Observe_nil_instance_id_panics k c cr t j observed v :
  elb.DescribeLoadBalancersRequest c (describeInput cr)
    = (Some {| awselb.LoadBalancerDescriptions := [observed] |}, None) ->
  v ∈ awselb.Instances observed ->
  awselb.InstanceId v = None ->
  Observe {| ekube := k; client := Some c |}
          {| object := resource.Ptr cr; now := t; journal := j |}
  = Panic "invalid memory address or nil pointer dereference".
Proof.
  intros Hcall Hin Hv.
  unfold elbattachment.Observe, send. run_phase. fold (describeInput cr).
  rewrite Hcall. simpl. by rewrite (findInstance_nil_id _ _ _ v).
Qed.


End ObserveFacts.

Section PhaseFacts.

Import runtimev1alpha1 elbattachment.

Context {Observation Foreign : Type}.
Variable IsELBNotFound : resource.ErrorIs.
Variable IsVPCNotFoundErr : resource.ErrorIs.

Abbreviation CR := (v1alpha1.ELBAttachment Observation).
Abbreviation W := (@elbattachment.World Observation Foreign).
Abbreviation Connect := (@elbattachment.Connect Observation Foreign).
Abbreviation Observe := (@elbattachment.Observe Observation Foreign IsELBNotFound).
Abbreviation Create := (@elbattachment.Create Observation Foreign).
Abbreviation Update := (@elbattachment.Update Observation Foreign).
Abbreviation Delete := (@elbattachment.Delete Observation Foreign IsVPCNotFoundErr).

Implicit Types (cr : CR) (c : elb.Client) (k : client.Client) (t : Time)
  (j : list Event) (w : W).

(** Opens a phase and follows every branch the code can take. *)
Ltac open_phase :=
  unfold elbattachment.Connect, elbattachment.Observe, elbattachment.Create,
    elbattachment.Update, elbattachment.Delete, StatusSetConditions_now, send,
    errors.New, resource.Ignore;
  run_phase.

Ltac branch :=
  repeat match goal with
         | |- context [match ?x with _ => _ end] =>
             lazymatch x with
             | context [match _ with _ => _ end] => fail
             | _ => destruct x eqn:?; run_phase
             end
         end.

(** X5. What [Observe], [Create] and [Delete] return to their caller
    (result, error or panic) depends on the desired state of the resource
    and on the client only: not on the conditions, the observed state, the
    clock or what happened before.  In particular, [Create] and [Delete] do
    not change what a following [Observe] reports for the same answers of
    the client. *)
Theorem results_depend_on_desired_state_only (e : external) cr1 cr2 t1 t2 j1 j2 :
  v1alpha1.Spec cr1 = v1alpha1.Spec cr2 ->
  phase.resultOf (Observe e {| object := resource.Ptr cr1; now := t1; journal := j1 |})
  = phase.resultOf (Observe e {| object := resource.Ptr cr2; now := t2; journal := j2 |}) /\
  phase.resultOf (Create e {| object := resource.Ptr cr1; now := t1; journal := j1 |})
  = phase.resultOf (Create e {| object := resource.Ptr cr2; now := t2; journal := j2 |}) /\
  phase.resultOf (Delete e {| object := resource.Ptr cr1; now := t1; journal := j1 |})
  = phase.resultOf (Delete e {| object := resource.Ptr cr2; now := t2; journal := j2 |}).
Proof.
  intros Hspec. open_phase. rewrite Hspec. repeat split; branch; reflexivity.
Qed.

(** X6. When the deregistration succeeds, [Delete] returns nil; [Deleting]
    was set before the one request was sent, and the desired and observed
    state are as before. *)
Theorem Delete_success k c cr t j out :
  elb.DeregisterInstancesFromLoadBalancerRequest c (deregisterInput cr) = (out, None) ->
  Delete {| ekube := k; client := Some c |}
         {| object := resource.Ptr cr; now := t; journal := j |}
  = Done (None,
          {| object := resource.Ptr (v1alpha1.SetConditions cr [Deleting t]); now := t;
             journal := j ++ [StatusSetConditions [Deleting t];
                              Send (DeregisterInstancesFromLoadBalancer
                                      (deregisterInput cr))] |}).
Proof.
  intros Hcall. rewrite Delete_run, Hcall. simpl.
  unfold resource.Ignore. by destruct (IsVPCNotFoundErr None).
Qed.

(** X8. Every phase keeps the clock and only adds to the journal, and the
    only thing it may change in the object is to set its own condition,
    stamped with the clock: [Available] for [Observe], [Creating] for
    [Create], [Deleting] for [Delete]; [Connect] and [Update] change
    nothing in the object, and [Update] adds nothing to the journal. *)
Theorem phases_write_their_condition_only (c : connector) (e : external) w :
  (exists added, phase.wrote None w (Connect c w) added) /\
  (exists added, phase.wrote (Some Available) w (Observe e w) added) /\
  (exists added, phase.wrote (Some Creating) w (Create e w) added) /\
  phase.wrote None w (Update e w) [] /\
  (exists added, phase.wrote (Some Deleting) w (Delete e w) added).
Proof.
  destruct w as [mg t j]. unfold phase.wrote.
  split; [|split; [|split; [|split]]]; open_phase.
  - branch; eexists; (split; [reflexivity|]); (split; [|by left]);
      rewrite <- ?app_assoc; try reflexivity; by rewrite app_nil_r.
  - branch; try (by exists []); eexists; (split; [reflexivity|]);
      (split; [rewrite <- ?app_assoc; try reflexivity; by rewrite app_nil_r|]);
      first [by left | right; eauto].
  - branch; try (by exists []); eexists; (split; [reflexivity|]);
      (split; [rewrite <- ?app_assoc; try reflexivity; by rewrite app_nil_r|]);
      first [by left | right; eauto].
  - split; [reflexivity|]. split; [by rewrite app_nil_r | by left].
  - branch; try (by exists []); eexists; (split; [reflexivity|]);
      (split; [rewrite <- ?app_assoc; try reflexivity; by rewrite app_nil_r|]);
      first [by left | right; eauto].
Qed.

(** X9. No phase touches the desired state or the observed state
    ([status.atProvider]) of the resource; an object of another kind, or the
    nil interface, comes back as it is. *)
Theorem phases_leave_desired_and_observed_state (c : connector) (e : external) w :
  phase.untouched w (Connect c w) /\
  phase.untouched w (Observe e w) /\
  phase.untouched w (Create e w) /\
  phase.untouched w (Update e w) /\
  phase.untouched w (Delete e w).
Proof.
  destruct w as [mg t j]. unfold phase.untouched, phase.sameButConditions.
  repeat split; open_phase; branch; done.
Qed.

(** X10. [Observe], [Create] and [Delete] send at most one request to AWS
    each time they run (none is retried); [Connect] and [Update] send
    none. *)
Theorem phases_send_at_most_one_request (c : connector) (e : external) w :
  phase.sentAtMost 0 w (Connect c w) /\
  phase.sentAtMost 1 w (Observe e w) /\
  phase.sentAtMost 1 w (Create e w) /\
  phase.sentAtMost 0 w (Update e w) /\
  phase.sentAtMost 1 w (Delete e w).
Proof.
  destruct w as [mg t j]. unfold phase.sentAtMost.
  repeat split; open_phase; branch; unfold phase.sends;
    rewrite ?List.filter_app, ?length_app; simpl; lia.
Qed.

End PhaseFacts.

Section ConnectFacts.

Import runtimev1alpha1 elbattachment.

Context {Observation Foreign : Type}.
Variable IsELBNotFound : resource.ErrorIs.
Variable IsVPCNotFoundErr : resource.ErrorIs.

Abbreviation CR := (v1alpha1.ELBAttachment Observation).
Abbreviation Connect := (@elbattachment.Connect Observation Foreign).
Abbreviation Observe := (@elbattachment.Observe Observation Foreign IsELBNotFound).
Abbreviation Create := (@elbattachment.Create Observation Foreign).
Abbreviation Update := (@elbattachment.Update Observation Foreign).
Abbreviation Delete := (@elbattachment.Delete Observation Foreign IsVPCNotFoundErr).

Implicit Types (cr : CR) (c : connector) (t : Time) (j : list Event)
  (p : awsv1alpha3.Provider) (ref : awsv1alpha3.SecretKeySelector) (s : corev1.Secret).

(** X11. In ambient-identity mode [Connect] reads the provider and nothing
    else: the secret is not fetched, even if the provider names one, and the
    client constructor gets empty credentials, the provider's region and the
    pod-service-account method.  The handle wraps what the constructor
    returned, and its error comes back wrapped with the construction tag. *)
Theorem Connect_ambient_skips_secret c cr t j p :
  client.GetProvider (kube c) (providerKey cr) = (p, None) ->
  ambient p = true ->
  let region := awsv1alpha3.Region (awsv1alpha3.Spec p) in
  let made := newClientFn c [] region awsclients.UsePodServiceAccount in
  Connect c {| object := resource.Ptr cr; now := t; journal := j |}
  = Done ((Some {| ekube := kube c; client := fst made |},
           errors.Wrap (snd made) errCreateELBClient),
          {| object := resource.Ptr cr; now := t;
             journal := j ++ [KubeGet ProviderKind (providerKey cr);
                              NewClient [] region awsclients.UsePodServiceAccount] |}).
Proof.
  intros Hp Hamb region made. subst region made. unfold ambient in Hamb.
  unfold elbattachment.Connect. run_phase. fold (providerKey cr).
  rewrite Hp. simpl. rewrite Hamb. run_phase.
  destruct (newClientFn c [] _ _) as [elbClient err]. simpl. by rewrite <- app_assoc.
Qed.

(** X12. Outside ambient mode, with a secret reference that can be fetched,
    [Connect] reads the provider, then the secret at the namespace and name
    of the reference, and calls the client constructor with the bytes stored
    under the reference's key, the provider's region and the
    provider-secret method. *)
Theorem Connect_reads_secret c cr t j p ref s :
  client.GetProvider (kube c) (providerKey cr) = (p, None) ->
  ambient p = false ->
  awsv1alpha3.CredentialsSecretRef (awsv1alpha3.Spec p) = Some ref ->
  client.GetSecret (kube c) (secretKey ref) = (s, None) ->
  let region := awsv1alpha3.Region (awsv1alpha3.Spec p) in
  let credentials := default [] (corev1.Data s !! awsv1alpha3.Key ref) in
  let made := newClientFn c credentials region awsclients.UseProviderSecret in
  Connect c {| object := resource.Ptr cr; now := t; journal := j |}
  = Done ((Some {| ekube := kube c; client := fst made |},
           errors.Wrap (snd made) errCreateELBClient),
          {| object := resource.Ptr cr; now := t;
             journal := j ++ [KubeGet ProviderKind (providerKey cr);
                              KubeGet SecretKind (secretKey ref);
                              NewClient credentials region awsclients.UseProviderSecret] |}).
Proof.
  intros Hp Hamb Href Hs region credentials made. subst region credentials made.
  unfold ambient in Hamb.
  unfold elbattachment.Connect, awsv1alpha3.GetCredentialsSecretReference. run_phase.
  fold (providerKey cr). rewrite Hp. simpl. rewrite Hamb, Href. run_phase.
  fold (secretKey ref). rewrite Hs. simpl. unfold corev1.DataAt.
  destruct (newClientFn c _ _ _) as [elbClient err]. simpl. by rewrite <- !app_assoc.
Qed.

(** X13. A secret that lacks the key the provider names is no error for
    [Connect]: the client constructor is called with empty credentials and
    the provider-secret method, and [Connect] fails only if the constructor
    does. *)
Theorem Connect_missing_key_empty_credentials c cr t j p ref s :
  client.GetProvider (kube c) (providerKey cr) = (p, None) ->
  ambient p = false ->
  awsv1alpha3.CredentialsSecretRef (awsv1alpha3.Spec p) = Some ref ->
  client.GetSecret (kube c) (secretKey ref) = (s, None) ->
  corev1.Data s !! awsv1alpha3.Key ref = None ->
  exists handle err w',
    Connect c {| object := resource.Ptr cr; now := t; journal := j |}
    = Done ((Some handle, err), w') /\
    last (journal w')
    = Some (NewClient [] (awsv1alpha3.Region (awsv1alpha3.Spec p))
              awsclients.UseProviderSecret) /\
    (err <> None <->
     snd (newClientFn c [] (awsv1alpha3.Region (awsv1alpha3.Spec p))
            awsclients.UseProviderSecret) <> None).
Proof.
  intros Hp Hamb Href Hs Hkey. unfold ambient in Hamb.
  unfold elbattachment.Connect, awsv1alpha3.GetCredentialsSecretReference. run_phase.
  fold (providerKey cr). rewrite Hp. simpl. rewrite Hamb, Href. run_phase.
  fold (secretKey ref). rewrite Hs. simpl. unfold corev1.DataAt. rewrite Hkey. simpl.
  destruct (newClientFn c [] _ _) as [elbClient err]. simpl.
  eexists _, _, _. split; [reflexivity|]. simpl. split.
  - by rewrite !last_snoc.
  - by destruct err.
Qed.

(** X14. When [Connect] fails before the client constructor, the
    constructor is not called, and no read is made past the one that
    failed: the journal gains the provider read alone if the provider cannot
    be fetched or names no secret outside ambient mode, and the provider
    read followed by the secret read if the secret cannot be fetched. *)
Theorem Connect_early_failure_calls_no_constructor c cr t j :
  let w := {| object := resource.Ptr cr; now := t; journal := j |} in
  let after added := {| object := resource.Ptr cr; now := t; journal := j ++ added |} in
  (forall cause,
      providerFetchFails c cr cause ->
      Connect c w = Done ((None, Some (ErrWrap cause errGetProvider)),
                          after [KubeGet ProviderKind (providerKey cr)])) /\
  (credentialSourceMissing c cr ->
   Connect c w = Done ((None, Some (ErrNew errGetProviderSecret)),
                       after [KubeGet ProviderKind (providerKey cr)])) /\
  (forall cause p ref,
      client.GetProvider (kube c) (providerKey cr) = (p, None) ->
      ambient p = false ->
      awsv1alpha3.CredentialsSecretRef (awsv1alpha3.Spec p) = Some ref ->
      snd (client.GetSecret (kube c) (secretKey ref)) = Some cause ->
      Connect c w = Done ((None, Some (ErrWrap cause errGetProviderSecret)),
                          after [KubeGet ProviderKind (providerKey cr);
                                 KubeGet SecretKind (secretKey ref)])).
Proof.
  intros w after. subst w after.
  unfold providerFetchFails, credentialSourceMissing, ambient.
  split; [|split].
  - intros cause H.
    unfold elbattachment.Connect. run_phase. fold (providerKey cr).
    destruct (client.GetProvider (kube c) (providerKey cr)) as [p err].
    simpl in H. subst err. reflexivity.
  - intros (p & Hp & Hamb & Href).
    unfold elbattachment.Connect, awsv1alpha3.GetCredentialsSecretReference, errors.New.
    run_phase. fold (providerKey cr). rewrite Hp. simpl. rewrite Hamb, Href. reflexivity.
  - intros cause p ref Hp Hamb Href Hs.
    unfold elbattachment.Connect, awsv1alpha3.GetCredentialsSecretReference. run_phase.
    fold (providerKey cr). rewrite Hp. simpl. rewrite Hamb, Href. run_phase.
    fold (secretKey ref).
    destruct (client.GetSecret (kube c) (secretKey ref)) as [s err].
    simpl in Hs. subst err. simpl. by rewrite <- app_assoc.
Qed.

(** X15. [Connect] does not look at the client the constructor returns: if
    the constructor returns a nil client and a nil error, [Connect] succeeds
    with a handle around the nil client, and [Observe], [Create] and
    [Delete] on that handle panic at their first call; [Update], which
    makes no call, still returns. *)
Theorem Connect_nil_client_then_phases_panic c cr t j region credentials auth :
  resolved c cr region credentials auth ->
  newClientFn c credentials region auth = (None, None) ->
  exists handle w',
    Connect c {| object := resource.Ptr cr; now := t; journal := j |}
    = Done ((Some handle, None), w') /\
    Observe handle w' = Panic "invalid memory address or nil pointer dereference" /\
    Create handle w' = Panic "invalid memory address or nil pointer dereference" /\
    Delete handle w' = Panic "invalid memory address or nil pointer dereference" /\
    Update handle w' = Done ((managed.ExternalUpdate_zero, None), w').
Proof.
  intros (p & Hp & -> & Hmode) Hnew. unfold ambient in Hmode.
  unfold elbattachment.Connect, awsv1alpha3.GetCredentialsSecretReference. run_phase.
  fold (providerKey cr). rewrite Hp. simpl.
  destruct Hmode as [(Hamb & -> & ->)|(Hamb & ref & s & Href & Hs & -> & ->)].
  - rewrite Hamb. run_phase. rewrite Hnew. simpl.
    eexists _, _. split; [reflexivity|]. repeat split.
  - rewrite Hamb, Href. run_phase. fold (secretKey ref). rewrite Hs. simpl.
    rewrite Hnew. simpl. eexists _, _. split; [reflexivity|]. repeat split.
Qed.

End ConnectFacts.

(** ** The helpers of the group-policy-attachment test *)

Section TestHelperFacts.

Import runtimev1alpha1 iamgrouppolicyattachment_test.

Implicit Types (r : identityv1alpha1.IAMGroupPolicyAttachment)
  (m : list groupPolicyModifier).

(** X16. The four modifiers write disjoint fields: two modifiers of
    different kinds commute, and of two modifiers of the same kind the one
    applied last wins. *)
Theorem modifiers_commute_and_last_wins r (c c' : list Condition) (g g' : option string)
    (a a' b b' : string) :
  (withConditions c (withGroupName g r) = withGroupName g (withConditions c r) /\
   withConditions c (withSpecPolicyArn a r) = withSpecPolicyArn a (withConditions c r) /\
   withConditions c (withStatusPolicyArn b r) = withStatusPolicyArn b (withConditions c r) /\
   withGroupName g (withSpecPolicyArn a r) = withSpecPolicyArn a (withGroupName g r) /\
   withGroupName g (withStatusPolicyArn b r) = withStatusPolicyArn b (withGroupName g r) /\
   withSpecPolicyArn a (withStatusPolicyArn b r)
   = withStatusPolicyArn b (withSpecPolicyArn a r)) /\
  (withConditions c (withConditions c' r) = withConditions c r /\
   withGroupName g (withGroupName g' r) = withGroupName g r /\
   withSpecPolicyArn a (withSpecPolicyArn a' r) = withSpecPolicyArn a r /\
   withStatusPolicyArn b (withStatusPolicyArn b' r) = withStatusPolicyArn b r).
Proof. repeat split. Qed.

Lemma modifier_keeps_provider f r :
  isModifier f ->
  identityv1alpha1.ProviderReference (identityv1alpha1.Spec (f r))
  = identityv1alpha1.ProviderReference (identityv1alpha1.Spec r).
Proof. by intros []. Qed.

Lemma modifiers_keep_provider m r :
  Forall isModifier m ->
  identityv1alpha1.ProviderReference
    (identityv1alpha1.Spec (fold_left (fun cr f => f cr) m r))
  = identityv1alpha1.ProviderReference (identityv1alpha1.Spec r).
Proof.
  intros Hall. revert r.
  induction Hall as [|f m Hf _ IH]; intros r; simpl; [reflexivity|].
  by rewrite IH, modifier_keeps_provider.
Qed.

(** X17. Whatever modifiers of the test file [groupPolicy] is given, in
    whatever number and order, the resource it builds refers to the provider
    [providerName], the one the mocked Kubernetes client of [TestConnect]
    answers for. *)
Theorem groupPolicy_keeps_provider m :
  Forall isModifier m ->
  identityv1alpha1.ProviderReference (identityv1alpha1.Spec (groupPolicy m))
  = {| v1alpha1.Name := providerName |}.
Proof.
  intros Hall. unfold groupPolicy. by rewrite modifiers_keep_provider.
Qed.

End TestHelperFacts.

(** ** These properties on the fixtures *)

Section CoverageInstances.

Import runtimev1alpha1 elbattachment.

Abbreviation nilDeref := "invalid memory address or nil pointer dereference".

(** The instance is the second of two registered ones. *)
Lemma Observe_exists_iff_registered_witness :
  Observe fixtures.isELBNotFound (fixtures.handle (fixtures.serving ["i-0999"; "i-0123"] []))
          (fixtures.world (resource.Ptr fixtures.attachment))
  = Done (({| managed.ResourceExists := true; managed.ResourceUpToDate := true |}, None),
          {| object := resource.Ptr (v1alpha1.SetConditions fixtures.attachment [Available 42%Z]);
             now := 42%Z;
             journal := [Send (DescribeLoadBalancers (describeInput fixtures.attachment));
                         StatusSetConditions [Available 42%Z]] |}).
Proof.
  apply (Observe_exists_iff_registered (Foreign := unit) fixtures.isELBNotFound
           fixtures.kubeNone (fixtures.serving ["i-0999"; "i-0123"] []) fixtures.attachment
           42%Z []
           {| awselb.Instances := [{| awselb.InstanceId := Some "i-0999" |};
                                   {| awselb.InstanceId := Some "i-0123" |}] |}).
  - reflexivity.
  - repeat constructor; by eexists.
Defined.

(** No instance id is desired, and the load balancer lists an instance
    whose id is the empty string. *)
Lemma Observe_empty_instance_id_never_exists_witness :
  v1alpha1.InstanceID (v1alpha1.ForProvider (v1alpha1.Spec fixtures.unnamed)) = "" /\
  Observe fixtures.isELBNotFound
          (fixtures.handle (fixtures.describing [{| awselb.InstanceId := Some "" |}]))
          (fixtures.world (resource.Ptr fixtures.unnamed))
  = Done ((managed.ExternalObservation_zero, None),
          {| object := resource.Ptr fixtures.unnamed; now := 42%Z;
             journal := [Send (DescribeLoadBalancers (describeInput fixtures.unnamed))] |}) /\
  managed.ResourceExists managed.ExternalObservation_zero = false.
Proof.
  split; [reflexivity|]. split; [reflexivity|].
  exact (proj1 (Observe_empty_instance_id_never_exists (Foreign := unit)
                  fixtures.isELBNotFound
                  (fixtures.handle (fixtures.describing [{| awselb.InstanceId := Some "" |}]))
                  fixtures.unnamed 42%Z [] managed.ExternalObservation_zero None _
                  eq_refl eq_refl)).
Defined.

(** The desired instance is registered, and an instance without id
    follows it. *)
Lemma Observe_nil_instance_id_panics_witness :
  Observe (Foreign := unit) fixtures.isELBNotFound
          (fixtures.handle (fixtures.describing [{| awselb.InstanceId := Some "i-0123" |};
                                                 {| awselb.InstanceId := None |}]))
          (fixtures.world (resource.Ptr fixtures.attachment))
  = Panic nilDeref.
Proof.
  apply (Observe_nil_instance_id_panics (Foreign := unit) fixtures.isELBNotFound
           fixtures.kubeNone _ fixtures.attachment 42%Z []
           {| awselb.Instances := [{| awselb.InstanceId := Some "i-0123" |};
                                   {| awselb.InstanceId := None |}] |}
           {| awselb.InstanceId := None |}).
  - reflexivity.
  - right. left.
  - reflexivity.
Defined.


(** The attachment before and after a [Create]: another status, another
    time, another journal, the same answers. *)
Lemma results_depend_on_desired_state_only_witness :
  let e := fixtures.handle (fixtures.serving ["i-0123"] ["i-0123"]) in
  let created := v1alpha1.SetConditions fixtures.attachment [Creating 42%Z] in
  phase.resultOf (Observe fixtures.isELBNotFound e (fixtures.world (resource.Ptr fixtures.attachment)))
  = phase.resultOf (Observe (Foreign := unit) fixtures.isELBNotFound e
                      {| object := resource.Ptr created; now := 50%Z;
                         journal := [StatusSetConditions [Creating 42%Z]] |}).
Proof.
  intros e created.
  exact (proj1 (results_depend_on_desired_state_only (Foreign := unit)
                  fixtures.isELBNotFound fixtures.isVPCNotFoundErr e
                  fixtures.attachment created 42%Z 50%Z [] _ eq_refl)).
Defined.

(** The test's "VaildInput" of [TestDelete]. *)
Lemma Delete_success_witness :
  Delete fixtures.isVPCNotFoundErr (fixtures.handle (fixtures.serving ["i-0123"] []))
         (fixtures.world (resource.Ptr fixtures.attachment))
  = Done (None,
          {| object := resource.Ptr (v1alpha1.SetConditions fixtures.attachment [Deleting 42%Z]);
             now := 42%Z;
             journal := [StatusSetConditions [Deleting 42%Z];
                         Send (DeregisterInstancesFromLoadBalancer
                                 (deregisterInput fixtures.attachment))] |}).
Proof.
  exact (Delete_success (Foreign := unit) fixtures.isVPCNotFoundErr fixtures.kubeNone
           (fixtures.serving ["i-0123"] []) fixtures.attachment 42%Z [] _ eq_refl).
Defined.

(** The test's "ClientError" of [TestDelete]. *)
Lemma Delete_error_unless_VPC_not_found_witness :
  Delete fixtures.isVPCNotFoundErr (fixtures.handle (fixtures.failing fixtures.errBoom))
         (fixtures.world (resource.Ptr fixtures.attachment))
  = Done (Some (ErrWrap fixtures.errBoom errDelete),
          {| object := resource.Ptr (v1alpha1.SetConditions fixtures.attachment [Deleting 42%Z]);
             now := 42%Z;
             journal := [StatusSetConditions [Deleting 42%Z];
                         Send (DeregisterInstancesFromLoadBalancer
                                 (deregisterInput fixtures.attachment))] |}).
Proof.
  exact (Delete_error_unless_VPC_not_found (Foreign := unit) fixtures.isVPCNotFoundErr
           fixtures.kubeNone (fixtures.failing fixtures.errBoom) fixtures.attachment 42%Z []
           None fixtures.errBoom eq_refl eq_refl).
Defined.

(** The test's "SuccessfulUseServiceAccount": the provider names a secret,
    which is not read. *)
Lemma Connect_ambient_skips_secret_witness :
  let c := {| kube := fixtures.kubeWith true; newClientFn := fun _ _ _ => (None, None) |} in
  awsv1alpha3.CredentialsSecretRef (awsv1alpha3.Spec (fixtures.providerSA true)) <> None /\
  Connect c (fixtures.world (resource.Ptr fixtures.attachment))
  = Done ((Some {| ekube := fixtures.kubeWith true; client := None |}, None),
          {| object := resource.Ptr fixtures.attachment; now := 42%Z;
             journal := [KubeGet ProviderKind (providerKey fixtures.attachment);
                         NewClient [] fixtures.testRegion awsclients.UsePodServiceAccount] |}).
Proof.
  intros c. split; [discriminate|].
  exact (Connect_ambient_skips_secret (Foreign := unit) c fixtures.attachment 42%Z []
           (fixtures.providerSA true) eq_refl eq_refl).
Defined.

(** The test's "Successful". *)
Lemma Connect_reads_secret_witness :
  let c := {| kube := fixtures.kubeWith false; newClientFn := fun _ _ _ => (None, None) |} in
  Connect c (fixtures.world (resource.Ptr fixtures.attachment))
  = Done ((Some {| ekube := fixtures.kubeWith false; client := None |}, None),
          {| object := resource.Ptr fixtures.attachment; now := 42%Z;
             journal := [KubeGet ProviderKind (providerKey fixtures.attachment);
                         KubeGet SecretKind
                           {| types.Namespace := fixtures.secretNamespace;
                              types.Name := fixtures.connectionSecretName |};
                         NewClient fixtures.credData fixtures.testRegion
                           awsclients.UseProviderSecret] |}).
Proof.
  intros c.
  exact (Connect_reads_secret (Foreign := unit) c fixtures.attachment 42%Z []
           (fixtures.providerSA false) _ _ eq_refl eq_refl eq_refl eq_refl).
Defined.

(** The secret holds bytes under another key only. *)
Lemma Connect_missing_key_empty_credentials_witness :
  let c := {| kube := fixtures.kubeWithoutKey; newClientFn := fun _ _ _ => (None, None) |} in
  exists handle err w',
    Connect c (fixtures.world (resource.Ptr fixtures.attachment))
    = Done ((Some handle, err), w') /\
    last (journal w')
    = Some (NewClient [] fixtures.testRegion awsclients.UseProviderSecret).
Proof.
  intros c.
  destruct (Connect_missing_key_empty_credentials (Foreign := unit) c fixtures.attachment
              42%Z [] (fixtures.providerSA false) _ _ eq_refl eq_refl eq_refl eq_refl eq_refl)
    as (handle & err & w' & Hrun & Hlast & _).
  by exists handle, err, w'.
Defined.

(** The tests' "ProviderGetFailed", "SecretGetFailedNil" and
    "SecretGetFailed". *)
Lemma Connect_early_failure_calls_no_constructor_witness :
  let made := fun (_ : list byte) (_ : string) (_ : awsclients.AuthMethod) =>
                (@None elb.Client, @None Err) in
  let w := fixtures.world (resource.Ptr fixtures.attachment) in
  let read := KubeGet ProviderKind (providerKey fixtures.attachment) in
  Connect {| kube := fixtures.kubeNone; newClientFn := made |} w
  = Done ((None, Some (ErrWrap fixtures.errBoom errGetProvider)),
          {| object := resource.Ptr fixtures.attachment; now := 42%Z; journal := [read] |}) /\
  Connect {| kube := fixtures.kubeWithoutRef; newClientFn := made |} w
  = Done ((None, Some (ErrNew errGetProviderSecret)),
          {| object := resource.Ptr fixtures.attachment; now := 42%Z; journal := [read] |}) /\
  Connect {| kube := fixtures.kubeWithoutSecret; newClientFn := made |} w
  = Done ((None, Some (ErrWrap fixtures.errBoom errGetProviderSecret)),
          {| object := resource.Ptr fixtures.attachment; now := 42%Z;
             journal := [read;
                         KubeGet SecretKind
                           {| types.Namespace := fixtures.secretNamespace;
                              types.Name := fixtures.connectionSecretName |}] |}).
Proof.
  intros made w read. split; [|split].
  - apply (proj1 (Connect_early_failure_calls_no_constructor (Foreign := unit)
                    {| kube := fixtures.kubeNone; newClientFn := made |}
                    fixtures.attachment 42%Z [])).
    reflexivity.
  - apply (proj1 (proj2 (Connect_early_failure_calls_no_constructor (Foreign := unit)
                           {| kube := fixtures.kubeWithoutRef; newClientFn := made |}
                           fixtures.attachment 42%Z []))).
    eexists. split; [reflexivity|]. split; reflexivity.
  - apply (proj2 (proj2 (Connect_early_failure_calls_no_constructor (Foreign := unit)
                           {| kube := fixtures.kubeWithoutSecret; newClientFn := made |}
                           fixtures.attachment 42%Z []))
             fixtures.errBoom (fixtures.providerSA false) _ eq_refl eq_refl eq_refl eq_refl).
Defined.

(** The constructor of the tests, which returns [nil, nil]. *)
Lemma Connect_nil_client_then_phases_panic_witness :
  let c := {| kube := fixtures.kubeWith true; newClientFn := fun _ _ _ => (None, None) |} in
  exists handle w',
    Connect c (fixtures.world (resource.Ptr fixtures.attachment)) = Done ((Some handle, None), w') /\
    Observe fixtures.isELBNotFound handle w' = Panic nilDeref /\
    Create handle w' = Panic nilDeref /\
    Delete fixtures.isVPCNotFoundErr handle w' = Panic nilDeref.
Proof.
  intros c.
  destruct (Connect_nil_client_then_phases_panic (Foreign := unit)
              fixtures.isELBNotFound fixtures.isVPCNotFoundErr c fixtures.attachment 42%Z []
              fixtures.testRegion [] awsclients.UsePodServiceAccount)
    as (handle & w' & Hrun & Ho & Hc & Hd & _).
  - exists (fixtures.providerSA true). split; [reflexivity|]. split; [reflexivity|].
    left. by repeat split.
  - reflexivity.
  - by exists handle, w'.
Defined.

(** The resource the test's "VaildInput" of [TestObserve] expects. *)
Lemma groupPolicy_keeps_provider_witness :
  let m := [ iamgrouppolicyattachment_test.withGroupName (Some "some group");
             iamgrouppolicyattachment_test.withSpecPolicyArn "some arn";
             iamgrouppolicyattachment_test.withConditions [Available 0%Z];
             iamgrouppolicyattachment_test.withStatusPolicyArn "some arn" ] in
  identityv1alpha1.ProviderReference
    (identityv1alpha1.Spec (iamgrouppolicyattachment_test.groupPolicy m))
  = {| v1alpha1.Name := "aws-creds" |}.
Proof.
  intros m. apply groupPolicy_keeps_provider. subst m.
  repeat constructor.
Defined.

End CoverageInstances.
